(** * casa-wonders: the listing, wishlist and booking data layer

    A shallow embedding of [src/lib/api.ts] and of the booking form of
    [src/components/BookingModal.tsx].

    Conventions of the embedding.
    - A JavaScript [number] is the rational it denotes ([Q]); comparisons
      are exact, and [NaN] and the infinities are left out.  Where the code
      multiplies or adds prices (the total price of the booking form, the
      total spent of the profile page) and where it computes a distance,
      the arithmetic is that of IEEE 754 binary64, rounded to nearest even
      ([Binary64]); a result that is no finite number is [None].  Page
      numbers and page sizes are integers ([Z]).
    - A JavaScript string is a [string]; [===] on strings is [=].
    - The participant counter of the booking form steps by one through
      whole numbers, on which binary64 is exact.
    - [await delay(ms)] only postpones the resolution of the promise; every
      operation of the data layer is modelled by the synchronous code that
      follows it.  Where a page starts several loads without waiting, the
      delays decide the order in which the responses arrive ([arrivals]).
    - The module-level objects [mockListings] and [mockUser] form the
      [Store], threaded explicitly through the operations that mutate it. *)

From Stdlib Require Import ZArith QArith Lia Lqa Sorted.
From Corelib Require SpecFloat.
From stdpp Require Import base decidable option list strings pretty gmap.

Local Open Scope Z_scope.

(** ** JavaScript numbers *)

Definition number := Q.

(** [if (x)] on a number: [0] is falsy, every other rational is truthy. *)
Definition truthy (x : number) : bool := negb (Qeq_bool x 0).

(** [x <= y] and [x >= y]. *)
Definition num_le (x y : number) : bool := Qle_bool x y.
Definition num_ge (x y : number) : bool := Qle_bool y x.

(** ** IEEE 754 binary64, the arithmetic of JavaScript numbers *)

Module Binary64.

Definition prec : Z := 53.
Definition emax : Z := 1024.

(** A double: a signed zero, a signed infinity, [NaN], or the finite
    number [(-1)^s * m * 2^e]. *)
Definition t : Type := SpecFloat.spec_float.

Definition zero : t := SpecFloat.S754_zero false.

(** [+], [-], [*], [/] and [Math.sqrt], each rounded to nearest even. *)
Definition add : t → t → t := SpecFloat.SFadd prec emax.
Definition sub : t → t → t := SpecFloat.SFsub prec emax.
Definition mul : t → t → t := SpecFloat.SFmul prec emax.
Definition div : t → t → t := SpecFloat.SFdiv prec emax.
Definition sqrt : t → t := SpecFloat.SFsqrt prec emax.


(** The double of an integer literal. *)
Definition of_Z (n : Z) : t := SpecFloat.binary_normalize prec emax n 0 false.

(** The double that a number denotes: the quotient of its numerator and
    denominator, rounded once; a number that is a double is that
    double. *)
Definition of_number (x : number) : t :=
  match Qnum x with
  | Z0 => zero
  | Zpos n =>
      div (SpecFloat.S754_finite false n 0)
          (SpecFloat.S754_finite false (Qden x) 0)
  | Zneg n =>
      div (SpecFloat.S754_finite true n 0)
          (SpecFloat.S754_finite false (Qden x) 0)
  end.

(** The rational that a finite double is. *)
Definition to_number (x : t) : option number :=
  match x with
  | SpecFloat.S754_zero _ => Some 0%Q
  | SpecFloat.S754_finite s m e =>
      let n := if s then Zneg m else Zpos m in
      Some (Qred (match e with
                  | Zneg k => n # (2 ^ k)
                  | _ => inject_Z (n * 2 ^ e)
                  end))
  | _ => None
  end.

(** Neither [NaN] nor an infinity. *)
Definition is_finite (x : t) : bool :=
  match x with
  | SpecFloat.S754_zero _ | SpecFloat.S754_finite _ _ _ => true
  | _ => false
  end.


End Binary64.

(** [x * y] and [x + y] on two numbers. *)
Definition times (x y : number) : option number :=
  Binary64.to_number
    (Binary64.mul (Binary64.of_number x) (Binary64.of_number y)).

Definition plus (x y : number) : option number :=
  Binary64.to_number
    (Binary64.add (Binary64.of_number x) (Binary64.of_number y)).

(** ** Domain model *)

(** Modelled from the spec: the union type of [Listing.category] in
    [lib/mockData.ts], which [ListingFilters.category] repeats in
    [api.ts]. *)
Inductive Category := restaurant | event | cultural.

#[global] Instance Category_eq_dec : EqDecision Category.
Proof. solve_decision. Defined.

(** Modelled from the spec: the union type of [Booking.status] in
    [lib/mockData.ts]. *)
Inductive Status := pending | confirmed | cancelled.

#[global] Instance Status_eq_dec : EqDecision Status.
Proof. solve_decision. Defined.

Module Location.
(** Modelled from the spec: [Listing.location] of [lib/mockData.ts],
    with the fields [api.ts] reads. *)
Record t := mk { lat : number; lng : number }.
End Location.

Module Listing.
(** Modelled from the spec: the interface [Listing] of
    [lib/mockData.ts], with the fields [api.ts] and the booking form
    read. *)
Record t := mk {
  id : string;
  category : Category;
  title : string;
  titleFr : string;
  description : string;
  descriptionFr : string;
  price : number;
  rating : number;
  location : Location.t
}.
End Listing.

Module Booking.
(** Modelled from the spec: the interface [Booking] of
    [lib/mockData.ts]. *)
Record t := mk {
  id : string;
  listingId : string;
  date : string;
  time : string;
  participants : number;
  status : Status;
  totalPrice : number;
  createdAt : string
}.

(** [booking.status = s], an in-place field update. *)
Definition set_status (s : Status) (b : t) : t :=
  mk (id b) (listingId b) (date b) (time b) (participants b) s
     (totalPrice b) (createdAt b).
End Booking.

Module BookingInput.
(** [Omit<Booking, "id" | "createdAt">], the argument of
    [createBooking]. *)
Record t := mk {
  listingId : string;
  date : string;
  time : string;
  participants : number;
  status : Status;
  totalPrice : number
}.
End BookingInput.

Module User.
(** Modelled from the spec: the interface [User] of [lib/mockData.ts].
    The preferences are an object whose keys the data layer never
    inspects. *)
Record t := mk {
  wishlist : list string;
  bookings : list Booking.t;
  preferences : gmap string string
}.
End User.

(** The two module-level objects every operation works on. *)
Record Store := mkStore {
  mockListings : list Listing.t;
  mockUser : User.t
}.

Definition set_wishlist (w : list string) (st : Store) : Store :=
  mkStore (mockListings st)
    (User.mk w (User.bookings (mockUser st)) (User.preferences (mockUser st))).

Definition set_bookings (bs : list Booking.t) (st : Store) : Store :=
  mkStore (mockListings st)
    (User.mk (User.wishlist (mockUser st)) bs (User.preferences (mockUser st))).

Definition set_preferences (p : gmap string string) (st : Store) : Store :=
  mkStore (mockListings st)
    (User.mk (User.wishlist (mockUser st)) (User.bookings (mockUser st)) p).

(** ** Wishlist API *)

(** [Array.prototype.includes] on an array of strings. *)
Definition wl_includes (w : list string) (x : string) : bool :=
  bool_decide (x ∈ w).

(** [if (!wishlist.includes(listingId)) wishlist.push(listingId)]. *)
Definition wl_add (listingId : string) (w : list string) : list string :=
  if wl_includes w listingId then w else w ++ [listingId].

(** [wishlist.filter((id) => id !== listingId)]. *)
Definition wl_remove (listingId : string) (w : list string) : list string :=
  filter (λ id, id ≠ listingId) w.

Definition addToWishlist (listingId : string) (st : Store) : Store :=
  set_wishlist (wl_add listingId (User.wishlist (mockUser st))) st.

Definition removeFromWishlist (listingId : string) (st : Store) : Store :=
  set_wishlist (wl_remove listingId (User.wishlist (mockUser st))) st.

(** [mockListings.filter((l) => mockUser.wishlist.includes(l.id))]. *)
Definition getWishlist (st : Store) : list Listing.t :=
  filter (λ l, wl_includes (User.wishlist (mockUser st)) (Listing.id l))
         (mockListings st).

(** ** Query engine *)

Module GeoFilter.
(** [ListingFilters.location]: a reference point and a radius in km. *)
Record t := mk { lat : number; lng : number; radius : number }.
End GeoFilter.

(** The interface [ListingFilters]; an absent ([undefined]) field is
    [None]. *)
Record ListingFilters := mkFilters {
  f_category : option Category;
  f_minPrice : option number;
  f_maxPrice : option number;
  f_minRating : option number;
  f_date : option string;
  f_location : option GeoFilter.t
}.

(** [{}], the filters object of a page that has selected nothing. *)
Definition noFilters : ListingFilters :=
  mkFilters None None None None None None.

(** The interface [PaginatedResponse<T>]. *)
Record PaginatedResponse (T : Type) := mkPage {
  data : list T;
  total : Z;
  page : Z;
  limit : Z;
  hasMore : bool
}.
Arguments mkPage {T}.
Arguments data {T}.
Arguments total {T}.
Arguments page {T}.
Arguments limit {T}.
Arguments hasMore {T}.

(** An index argument of [Array.prototype.slice]: a negative index counts
    from the end, and the result is clamped to [0 .. len]. *)
Definition relative_index (len i : Z) : Z :=
  if i <? 0 then Z.max (len + i) 0 else Z.min i len.

(** [l.slice(start, end)]. *)
Definition slice {A} (l : list A) (start end_ : Z) : list A :=
  let len := Z.of_nat (length l) in
  let k := relative_index len start in
  let final := relative_index len end_ in
  take (Z.to_nat (final - k)) (drop (Z.to_nat k) l).

(** [distance <= radius], where the distance may be [NaN] ([None]), on
    which every comparison is false. *)
Definition within (distance : option number) (radius : number) : bool :=
  match distance with
  | Some d => num_le d radius
  | None => false
  end.

Section QueryEngine.

(** The result of [calculateDistance] (api.ts, lines 260-282), which the
    listing query uses only in the comparison [distance <= radius]; it is
    [None] when it is [NaN].  The function itself, the haversine formula
    in binary64 over the trigonometry of the runtime, is
    [Haversine.calculateDistance] below. *)
Variable calculateDistance :
  number → number → number → number → option number.

(** [String.prototype.toLowerCase], a function of the runtime. *)
Variable toLowerCase : string → string.

(** The five guarded [filter] passes of [getListings], in source
    order.  Each guard is JavaScript truthiness: an absent field is
    falsy, and so is the number [0]; an enumeration value and an object
    are truthy. *)
Definition by_category (f : ListingFilters) (ls : list Listing.t) :=
  match f_category f with
  | Some c => filter (λ l, Listing.category l = c) ls
  | None => ls
  end.

Definition by_minPrice (f : ListingFilters) (ls : list Listing.t) :=
  match f_minPrice f with
  | Some m =>
      if truthy m then filter (λ l, num_ge (Listing.price l) m) ls else ls
  | None => ls
  end.

Definition by_maxPrice (f : ListingFilters) (ls : list Listing.t) :=
  match f_maxPrice f with
  | Some m =>
      if truthy m then filter (λ l, num_le (Listing.price l) m) ls else ls
  | None => ls
  end.

Definition by_minRating (f : ListingFilters) (ls : list Listing.t) :=
  match f_minRating f with
  | Some m =>
      if truthy m then filter (λ l, num_ge (Listing.rating l) m) ls else ls
  | None => ls
  end.

Definition near (g : GeoFilter.t) (l : Listing.t) : bool :=
  within (calculateDistance (GeoFilter.lat g) (GeoFilter.lng g)
            (Location.lat (Listing.location l))
            (Location.lng (Listing.location l)))
         (GeoFilter.radius g).

Definition by_location (f : ListingFilters) (ls : list Listing.t) :=
  match f_location f with
  | Some g => filter (λ l, near g l) ls
  | None => ls
  end.

(** [filteredListings] after the block [if (filters) { ... }]. *)
Definition filteredListings (filters : option ListingFilters)
    (st : Store) : list Listing.t :=
  match filters with
  | Some f =>
      by_location f (by_minRating f (by_maxPrice f (by_minPrice f
        (by_category f (mockListings st)))))
  | None => mockListings st
  end.

(** [getListings(filters, page, limit)]; a call that omits [page] or
    [limit] passes the defaults [1] and [10]. *)
Definition getListings (filters : option ListingFilters) (page limit : Z)
    (st : Store) : PaginatedResponse Listing.t :=
  let filtered := filteredListings filters st in
  let startIndex := (page - 1) * limit in
  let endIndex := startIndex + limit in
  let paginatedData := slice filtered startIndex endIndex in
  mkPage paginatedData (Z.of_nat (length filtered)) page limit
         (endIndex <? Z.of_nat (length filtered)).

(** [mockListings.find((l) => l.id === id) || null]. *)
Definition getListing (id : string) (st : Store) : option Listing.t :=
  snd <$> list_find (λ l, Listing.id l = id) (mockListings st).

(** [s.includes(sub)]: [sub] occurs in [s] at some position. *)
Fixpoint includes (s sub : string) : bool :=
  String.prefix sub s ||
  match s with
  | EmptyString => false
  | String _ s' => includes s' sub
  end.

(** The callback of the [filter] in [searchListings]. *)
Definition matches (lowercaseQuery : string) (l : Listing.t) : bool :=
  includes (toLowerCase (Listing.title l)) lowercaseQuery ||
  includes (toLowerCase (Listing.titleFr l)) lowercaseQuery ||
  includes (toLowerCase (Listing.description l)) lowercaseQuery ||
  includes (toLowerCase (Listing.descriptionFr l)) lowercaseQuery.

Definition searchListings (query : string) (st : Store) : list Listing.t :=
  let lowercaseQuery := toLowerCase query in
  filter (λ l, matches lowercaseQuery l) (mockListings st).

End QueryEngine.

(** [sub] is a substring of [s]: it occurs in [s] between some prefix and
    some suffix. *)
Definition occurs_in (sub s : string) : Prop :=
  ∃ pre post, s = pre +:+ sub +:+ post.

(** The number of pages of [limit] items that hold [n] items: the
    ceiling of [n / limit]. *)
Definition pageCount (n limit : Z) : Z := (n + limit - 1) / limit.

(** The [data] arrays of the pages [1 .. pages], one after the other. *)
Definition allPages
    (calculateDistance : number → number → number → number → option number)
    (filters : option ListingFilters) (limit : Z) (st : Store) (pages : Z)
    : list Listing.t :=
  concat ((λ p, data (getListings calculateDistance filters p limit st))
            <$> seqZ 1 pages).

(** A stand-in for [calculateDistance] in concrete runs that give no
    location filter: every point is at distance [0]. *)
Definition noDistance (lat1 lon1 lat2 lon2 : number) : option number :=
  Some 0%Q.

(** An instance of [toLowerCase] on the ASCII letters, for concrete
    runs. *)
Definition ascii_lower (c : Ascii.ascii) : Ascii.ascii :=
  let n := Ascii.N_of_ascii c in
  if ((65 <=? n) && (n <=? 90))%N then Ascii.ascii_of_N (n + 32) else c.

Fixpoint ascii_toLowerCase (s : string) : string :=
  match s with
  | EmptyString => EmptyString
  | String c s' => String (ascii_lower c) (ascii_toLowerCase s')
  end.


(** ** User API *)

Definition getUser (st : Store) : User.t := mockUser st.

(** [mockUser.preferences = { ...mockUser.preferences, ...preferences }]:
    the keys of the argument override those already set. *)
Definition updateUserPreferences (p : gmap string string) (st : Store)
    : Store :=
  set_preferences (p ∪ User.preferences (mockUser st)) st.

(** ** Booking API *)

(** [`booking-${Date.now()}`], for the clock reading [now] in
    milliseconds. *)
Definition bookingId (now : Z) : string := "booking-" +:+ pretty now.

(** The object literal [{ ...booking, id, createdAt }]. *)
Definition newBooking (now : Z) (isoNow : string) (booking : BookingInput.t)
    : Booking.t :=
  Booking.mk (bookingId now)
    (BookingInput.listingId booking) (BookingInput.date booking)
    (BookingInput.time booking) (BookingInput.participants booking)
    (BookingInput.status booking) (BookingInput.totalPrice booking)
    isoNow.

(** [createBooking(booking)].  The two readings of the clock are inputs:
    [now] is the value of [Date.now()] and [isoNow] the value of
    [new Date().toISOString()].  The result is the promise's value
    together with the store after [mockUser.bookings.push(newBooking)]. *)
Definition createBooking (now : Z) (isoNow : string)
    (booking : BookingInput.t) (st : Store) : Booking.t * Store :=
  let nb := newBooking now isoNow booking in
  (nb, set_bookings (User.bookings (mockUser st) ++ [nb]) st).

Definition getBookings (st : Store) : list Booking.t :=
  User.bookings (mockUser st).

(** [cancelBooking(bookingId)]: [find] yields the first booking with the
    id, whose [status] field is then overwritten in place.  The entries of
    [mockUser.bookings] are distinct objects ([createBooking] pushes a
    fresh literal), so the write reaches one position of the array. *)
Definition cancelBooking (bookingId : string) (st : Store) : Store :=
  let bs := User.bookings (mockUser st) in
  match list_find (λ b, Booking.id b = bookingId) bs with
  | Some (i, booking) =>
      set_bookings (<[i := Booking.set_status cancelled booking]> bs) st
  | None => st
  end.

(** ** Utility functions *)

Module Haversine.
Section Haversine.

(** [Math.sin], [Math.cos] and [Math.atan2], functions of the runtime,
    whose results ECMAScript leaves to the implementation. *)
Variables sin cos : Binary64.t → Binary64.t.
Variable atan2 : Binary64.t → Binary64.t → Binary64.t.

(** [Math.PI], the double nearest to the number pi. *)
Definition PI : Binary64.t :=
  SpecFloat.S754_finite false 7074237752028440 (-51).

(** [deg2rad(deg)]: [deg * (Math.PI / 180)]. *)
Definition deg2rad (deg : Binary64.t) : Binary64.t :=
  Binary64.mul deg (Binary64.div PI (Binary64.of_Z 180)).

(** The [const a] of [calculateDistance]; products associate to the
    left. *)
Definition a (lat1 lon1 lat2 lon2 : Binary64.t) : Binary64.t :=
  let dLat := deg2rad (Binary64.sub lat2 lat1) in
  let dLon := deg2rad (Binary64.sub lon2 lon1) in
  Binary64.add
    (Binary64.mul (sin (Binary64.div dLat (Binary64.of_Z 2)))
                  (sin (Binary64.div dLat (Binary64.of_Z 2))))
    (Binary64.mul
       (Binary64.mul
          (Binary64.mul (cos (deg2rad lat1)) (cos (deg2rad lat2)))
          (sin (Binary64.div dLon (Binary64.of_Z 2))))
       (sin (Binary64.div dLon (Binary64.of_Z 2)))).

(** [calculateDistance(lat1, lon1, lat2, lon2)]. *)
Definition calculateDistance (lat1 lon1 lat2 lon2 : Binary64.t)
    : Binary64.t :=
  let R := Binary64.of_Z 6371 in
  let a := a lat1 lon1 lat2 lon2 in
  let c :=
    Binary64.mul (Binary64.of_Z 2)
      (atan2 (Binary64.sqrt a)
             (Binary64.sqrt (Binary64.sub (Binary64.of_Z 1) a))) in
  let d := Binary64.mul R c in
  d.

End Haversine.


End Haversine.

(** ** The booking form of [BookingModal.tsx] *)

Inductive Step := form_step | payment_step | success_step.

(** The interface [BookingForm]. *)
Record BookingForm := mkForm {
  form_date : string;
  form_time : string;
  form_participants : number
}.

(** The component state: [step] and [form]. *)
Record Modal := mkModal { step : Step; form : BookingForm }.

(** The state set when the modal opens. *)
Definition openModal : Modal := mkModal form_step (mkForm "" "" 1%Q).

(** [Math.max(1, x)]. *)
Definition max1 (x : number) : number := if Qle_bool 1 x then x else 1%Q.

(** [if (s)] on a string: the empty string is falsy. *)
Definition nonempty (s : string) : bool :=
  match s with EmptyString => false | _ => true end.

(** The gestures of the wizard.  [Open] is the effect that resets it
    whenever the modal is opened, [Back] the button of the payment step
    that returns to the form, and [Paid] the step change that ends
    [handlePaymentSubmit]. *)
Inductive Gesture :=
| Open
| SelectDate (d : string)
| SelectTime (slot : string)
| Decrement
| Increment
| SubmitForm
| Back
| Paid
| Close.

Definition gesture (g : Gesture) (m : Modal) : Modal :=
  let f := form m in
  match g with
  | Open => openModal
  | SelectDate d => mkModal (step m) (mkForm d "" (form_participants f))
  | SelectTime slot =>
      mkModal (step m) (mkForm (form_date f) slot (form_participants f))
  | Decrement =>
      mkModal (step m)
        (mkForm (form_date f) (form_time f)
                (max1 (form_participants f - 1)%Q))
  | Increment =>
      mkModal (step m)
        (mkForm (form_date f) (form_time f) (form_participants f + 1)%Q)
  | SubmitForm =>
      (* handleFormSubmit *)
      if nonempty (form_date f) && nonempty (form_time f)
         && negb (Qle_bool (form_participants f) 0)
      then mkModal payment_step f else m
  | Back => mkModal form_step f
  | Paid => mkModal success_step f
  | Close => mkModal form_step f (* handleClose *)
  end.

Definition gestures (gs : list Gesture) (m : Modal) : Modal :=
  foldl (λ s g, gesture g s) m gs.

(** [const totalPrice = listing.price * form.participants], a binary64
    product; [None] when it is no finite number. *)
Definition modalTotalPrice (listing : Listing.t) (f : BookingForm)
    : option number :=
  times (Listing.price listing) (form_participants f).

(** The object literal [handlePaymentSubmit] gives to [createBooking],
    for the value [totalPrice] of the component's constant. *)
Definition formInput (listing : Listing.t) (f : BookingForm)
    (totalPrice : number) : BookingInput.t :=
  BookingInput.mk (Listing.id listing) (form_date f) (form_time f)
    (form_participants f) confirmed totalPrice.

(** The argument [handlePaymentSubmit] gives to [createBooking]. *)
Definition paymentInput (listing : Listing.t) (f : BookingForm)
    : option BookingInput.t :=
  formInput listing f <$> modalTotalPrice listing f.

(** [handlePaymentSubmit], after the simulated payment: the booking is
    created and the wizard moves to its last step. *)
Definition handlePaymentSubmit (listing : Listing.t) (now : Z)
    (isoNow : string) (m : Modal) (st : Store) : option (Modal * Store) :=
  (λ input, (gesture Paid m, snd (createBooking now isoNow input st)))
    <$> paymentInput listing (form m).

(** ** Sequences of operations on the store *)

(** The mutating operations of [api.ts].  [SetListingPrice] is not an
    operation of the code: it is the hypothetical change of a listing's
    price that the price-freeze property speaks of. *)
Inductive Op :=
| AddToWishlist (listingId : string)
| RemoveFromWishlist (listingId : string)
| UpdateUserPreferences (p : gmap string string)
| CreateBooking (now : Z) (isoNow : string) (booking : BookingInput.t)
| CancelBooking (bookingId : string)
| SetListingPrice (listingId : string) (p : number).

Definition with_price (p : number) (l : Listing.t) : Listing.t :=
  Listing.mk (Listing.id l) (Listing.category l) (Listing.title l)
    (Listing.titleFr l) (Listing.description l) (Listing.descriptionFr l)
    p (Listing.rating l) (Listing.location l).

Definition setListingPrice (listingId : string) (p : number) (st : Store)
    : Store :=
  mkStore
    (map (λ l, if decide (Listing.id l = listingId) then with_price p l
               else l) (mockListings st))
    (mockUser st).

Definition run (o : Op) (st : Store) : Store :=
  match o with
  | AddToWishlist i => addToWishlist i st
  | RemoveFromWishlist i => removeFromWishlist i st
  | UpdateUserPreferences p => updateUserPreferences p st
  | CreateBooking now isoNow b => snd (createBooking now isoNow b st)
  | CancelBooking i => cancelBooking i st
  | SetListingPrice i p => setListingPrice i p st
  end.

Definition run_all (os : list Op) (st : Store) : Store :=
  foldl (λ s o, run o s) st os.

(** ** Concrete data for the examples *)

Definition casablanca : Location.t := Location.mk (335892 # 10000) (-76125 # 10000).

Definition ricks : Listing.t :=
  Listing.mk "listing-1" restaurant "Rick's Cafe" "Rick's Café"
    "Legendary piano bar" "Piano-bar mythique" 150%Q (48 # 10) casablanca.

Definition mosque : Listing.t :=
  Listing.mk "listing-2" cultural "Hassan II Mosque" "Mosquée Hassan II"
    "Guided visit" "Visite guidée" 130%Q (49 # 10) casablanca.

Definition jazz : Listing.t :=
  Listing.mk "listing-3" event "Jazzablanca" "Jazzablanca"
    "Open-air jazz festival" "Festival de jazz en plein air" 400%Q (45 # 10)
    casablanca.

Definition emptyUser : User.t := User.mk [] [] ∅.

Definition store0 : Store := mkStore [ricks; mosque; jazz] emptyUser.


(** The booking of the end-to-end scenario: three participants for the
    listing priced 400, confirmed through the booking form. *)
Definition juneForm : BookingForm := mkForm "2025-06-01" "14:00" 3%Q.

(** What the form passes to [createBooking] for each of the three
    listings, with the total price [paymentInput] computes. *)
Definition ricksInput : BookingInput.t := formInput ricks juneForm 450%Q.
Definition mosqueInput : BookingInput.t := formInput mosque juneForm 390%Q.
Definition jazzInput : BookingInput.t := formInput jazz juneForm 1200%Q.

Definition store1 : Store :=
  snd (createBooking 1748786400000 "2025-06-01T14:00:00.000Z" jazzInput
         store0).

(** A catalog of thirty listings, for the runs that need more than one
    page of twelve; every tenth is a jazz night. *)
Definition venue (n : Z) : Listing.t :=
  Listing.mk ("listing-" +:+ pretty n)
    (if n mod 3 =? 0 then restaurant
     else if n mod 3 =? 1 then event else cultural)
    ((if n mod 10 =? 0 then "Late Jazz Night " else "Venue ") +:+ pretty n)
    ((if n mod 10 =? 0 then "Nuit Jazz " else "Lieu ") +:+ pretty n)
    "A place to visit" "Un lieu à visiter"
    (inject_Z (100 + 10 * n)) (4 # 1) casablanca.

Definition store30 : Store := mkStore (venue <$> seqZ 1 30) emptyUser.

(** The error kinds the specification names; the code declares none. *)
Inductive ErrorKind := NotFound | InvalidInput | OperationFailed.

(** [createBooking] as the specification words it, for comparison with
    [createBooking] above: validate [participants >= 1], look the listing
    up, compute the total price, then create and append the record. *)
Definition createBooking_as_specified (now : Z) (isoNow : string)
    (listingId date time : string) (participants : number) (status : Status)
    (st : Store) : ErrorKind + Booking.t * Store :=
  if Qle_bool 1 participants then
    match snd <$> list_find (λ l, Listing.id l = listingId) (mockListings st)
    with
    | Some l =>
        inr (createBooking now isoNow
               (BookingInput.mk listingId date time participants status
                  (Listing.price l * participants)%Q) st)
    | None => inl NotFound
    end
  else inl InvalidInput.


(** ** Callers of the data layer *)

(** *** The explore page ([pages/explore.tsx]) *)

(** The state [loadListings] writes: [listings], [hasMore] and [page]. *)
Record Explore := mkExplore {
  ex_listings : list Listing.t;
  ex_hasMore : bool;
  ex_page : Z
}.

(** The initial values of the three [useState] hooks. *)
Definition initialExplore : Explore := mkExplore [] true 1.

(** A call of [loadListings] under way: the time of the call in
    milliseconds, the [filters] and the [searchQuery] of the render whose
    closure it is, and its two arguments. *)
Record Load := mkLoad {
  load_start : Z;
  load_filters : ListingFilters;
  load_query : string;
  load_page : Z;
  load_reset : bool
}.

(** The filters that the URL effect sets: the [category] parameter of the
    URL, when there is one. *)
Definition urlFilters (category : option Category) : ListingFilters :=
  mkFilters category None None None None None.

Section ExplorePage.

Variable calculateDistance :
  number → number → number → number → option number.
Variable toLowerCase : string → string.

(** [String.prototype.trim], a function of the runtime. *)
Variable trim : string → string.

(** The [response] of [loadListings]: the search results as one page when
    the trimmed query is not empty, a page of twelve otherwise. *)
Definition loadResponse (filters : ListingFilters) (searchQuery : string)
    (pageNum : Z) (st : Store) : PaginatedResponse Listing.t :=
  if nonempty (trim searchQuery) then
    let searchResults := searchListings toLowerCase searchQuery st in
    mkPage searchResults (Z.of_nat (length searchResults)) 1
           (Z.of_nat (length searchResults)) false
  else getListings calculateDistance (Some filters) pageNum 12 st.

(** [loadListings(pageNum, reset)]. *)
Definition loadListings (filters : ListingFilters) (searchQuery : string)
    (pageNum : Z) (reset : bool) (st : Store) (ex : Explore) : Explore :=
  let response := loadResponse filters searchQuery pageNum st in
  mkExplore
    (if reset || (pageNum =? 1) then data response
     else ex_listings ex ++ data response)
    (hasMore response) pageNum.

(** [handleLoadMore], called when no load is in flight. *)
Definition handleLoadMore (filters : ListingFilters) (searchQuery : string)
    (st : Store) (ex : Explore) : Explore :=
  if ex_hasMore ex
  then loadListings filters searchQuery (ex_page ex + 1) false st ex
  else ex.

(** The time at which the response of a load arrives: [searchListings]
    answers after [delay(600)], [getListings] after [delay(800)]. *)
Definition load_end (l : Load) : Z :=
  load_start l + (if nonempty (trim (load_query l)) then 600 else 800).

(** The loads, given in the order of their calls, in the order in which
    their responses arrive: by the time at which the timer ends, and for
    equal times in the order of the calls.  No load is ever cancelled. *)
Fixpoint arrives (l : Load) (later : list Load) : list Load :=
  match later with
  | [] => [l]
  | l' :: later' =>
      if load_end l <=? load_end l' then l :: later
      else l' :: arrives l later'
  end.

Definition arrivals (loads : list Load) : list Load :=
  foldr arrives [] loads.

(** The state once the responses of all [loads] have arrived: each
    response runs the rest of its [loadListings] on the state it finds. *)
Definition settle (loads : list Load) (st : Store) (ex : Explore)
    : Explore :=
  foldl (λ ex l, loadListings (load_filters l) (load_query l) (load_page l)
                   (load_reset l) st ex)
        ex (arrivals loads).

(** The loads of a page that mounts.  After the first render the load
    effect calls [loadListings(1, true)] at [t0], with the initial state:
    no filter and no search text.  The URL effect of the same render sets
    the filters, always to a new object, and the search text of the URL;
    [loadListings] is then a new function, and after the second render
    the load effect calls it again, at [t1]. *)
Definition mountLoads (t0 t1 : Z) (category : option Category)
    (search : string) : list Load :=
  [mkLoad t0 noFilters "" 1 true;
   mkLoad t1 (urlFilters category) search 1 true].

(** The page after the responses of [loads] have arrived and [n] uses of
    the load-more button, by a render whose state holds [filters] and
    [searchQuery], each made once the response to the one before has
    arrived. *)
Definition loadedAfter (loads : list Load) (filters : ListingFilters)
    (searchQuery : string) (st : Store) (n : nat) : Explore :=
  Nat.iter n (handleLoadMore filters searchQuery st)
    (settle loads st initialExplore).

End ExplorePage.

(** [x !== undefined]. *)
Definition defined {A} (x : option A) : bool :=
  match x with Some _ => true | None => false end.

(** [getActiveFiltersCount], the same function in [explore.tsx],
    [index.tsx] and the filter drawer. *)
Definition getActiveFiltersCount (filters : ListingFilters) : Z :=
  let count := 0 in
  let count := if f_category filters is Some _ then count + 1 else count in
  let count :=
    if defined (f_minPrice filters) || defined (f_maxPrice filters)
    then count + 1 else count in
  let count :=
    if f_minRating filters is Some r
    then (if truthy r then count + 1 else count) else count in
  let count :=
    if f_date filters is Some d
    then (if nonempty d then count + 1 else count) else count in
  let count := if f_location filters is Some _ then count + 1 else count in
  count.

(** *** The filter drawer ([FilterDrawer], in the file of [Navbar.tsx]) *)

(** [handleCategoryChange]: choosing the selected category unselects it. *)
Definition handleCategoryChange (category : Category) (prev : ListingFilters)
    : ListingFilters :=
  mkFilters
    (if decide (f_category prev = Some category) then None else Some category)
    (f_minPrice prev) (f_maxPrice prev) (f_minRating prev) (f_date prev)
    (f_location prev).

(** [handlePriceRangeChange(min, max)]; the last range has no [max]. *)
Definition handlePriceRangeChange (min : number) (max : option number)
    (prev : ListingFilters) : ListingFilters :=
  mkFilters (f_category prev) (Some min) max (f_minRating prev) (f_date prev)
    (f_location prev).

(** [prev.minRating === rating]. *)
Definition same_rating (o : option number) (rating : number) : bool :=
  match o with
  | Some r => Qeq_bool r rating
  | None => false
  end.

(** [handleRatingChange]. *)
Definition handleRatingChange (rating : number) (prev : ListingFilters)
    : ListingFilters :=
  mkFilters (f_category prev) (f_minPrice prev) (f_maxPrice prev)
    (if same_rating (f_minRating prev) rating then None else Some rating)
    (f_date prev) (f_location prev).

(** [handleDateChange]: [date || undefined]. *)
Definition handleDateChange (date : string) (prev : ListingFilters)
    : ListingFilters :=
  mkFilters (f_category prev) (f_minPrice prev) (f_maxPrice prev)
    (f_minRating prev) (if nonempty date then Some date else None)
    (f_location prev).

(** The handlers of the drawer that edit its [filters] state. *)
Inductive DrawerGesture :=
| PickCategory (category : Category)
| PickPrice (min : number) (max : option number)
| PickRating (rating : number)
| PickDate (date : string)
| ClearFilters.

Definition drawer (g : DrawerGesture) (prev : ListingFilters)
    : ListingFilters :=
  match g with
  | PickCategory c => handleCategoryChange c prev
  | PickPrice min max => handlePriceRangeChange min max prev
  | PickRating r => handleRatingChange r prev
  | PickDate d => handleDateChange d prev
  | ClearFilters => noFilters (* handleClear *)
  end.

Definition is_clear (g : DrawerGesture) : bool :=
  match g with ClearFilters => true | _ => false end.

(** *** The home page ([pages/index.tsx]) *)

(** [listings.slice(0, 6)] of the listings loaded by
    [getListings(filters, 1, 50)]. *)
Definition featuredListings
    (calculateDistance : number → number → number → number → option number)
    (filters : ListingFilters) (st : Store) : list Listing.t :=
  slice (data (getListings calculateDistance (Some filters) 1 50 st)) 0 6.

(** *** The listing page *)

(** [handleWishlistClick] for the listing [listingId]: the component's
    flag [isWishlisted] decides which operation is called and is then
    set. *)
Definition handleWishlistClick (listingId : string) (isWishlisted : bool)
    (st : Store) : bool * Store :=
  if isWishlisted then (false, removeFromWishlist listingId st)
  else (true, addToWishlist listingId st).

(** [a % b] on integers: the sign follows the dividend, and the result is
    [NaN] ([None]) when [b] is [0]. *)
Definition js_rem (a b : Z) : option Z :=
  if b =? 0 then None else Some (Z.rem a b).

(** [nextImage] and [prevImage], for [images] images. *)
Definition nextImage (images prev : Z) : option Z := js_rem (prev + 1) images.

Definition prevImage (images prev : Z) : option Z :=
  js_rem (prev - 1 + images) images.

(** *** The wishlist page *)

(** The page's [listings] state beside the store. *)
Definition WishlistPage : Type := list Listing.t * Store.

(** The effect that loads the page: [setListings(await getWishlist())]. *)
Definition loadWishlist (st : Store) : WishlistPage := (getWishlist st, st).

(** [handleWishlistChange(listingId, isWishlisted)]. *)
Definition handleWishlistChange (listingId : string) (isWishlisted : bool)
    (p : WishlistPage) : WishlistPage :=
  if isWishlisted then p
  else (filter (λ l, Listing.id l ≠ listingId) (fst p),
        removeFromWishlist listingId (snd p)).

(** [handleClearAll], once confirmed: one [removeFromWishlist] for each
    listing shown, whose timers end in the order they were started. *)
Definition handleClearAll (p : WishlistPage) : WishlistPage :=
  ([], foldl (λ st l, removeFromWishlist (Listing.id l) st) (snd p) (fst p)).

(** *** The profile page ([pages/profile/index.tsx]) *)

(** [bookings.filter((b) => b.status === "confirmed")]. *)
Definition confirmedBookings (bookings : list Booking.t) : list Booking.t :=
  filter (λ b, Booking.status b = confirmed) bookings.

(** [bookings.reduce((sum, booking) => sum + booking.totalPrice, 0)]:
    binary64 additions, from the left; [None] when the sum is no finite
    number. *)
Definition totalSpent (bookings : list Booking.t) : option number :=
  foldl (λ sum booking, sum ≫= λ s, plus s (Booking.totalPrice booking))
        (Some 0%Q) bookings.

(** [new Set(confirmed.map((b) => b.listingId)).size]. *)
Definition placesVisited (bookings : list Booking.t) : nat :=
  size (list_to_set (Booking.listingId <$> confirmedBookings bookings)
          : gset string).

(** [bookings.slice(0, 3)], the entries of the recent activity card. *)
Definition recentActivity (bookings : list Booking.t) : list Booking.t :=
  slice bookings 0 3.

(** *** The steps of the booking wizard *)

#[global] Instance Step_eq_dec : EqDecision Step.
Proof. solve_decision. Defined.

(** Which gesture the wizard offers in which state: the form controls are
    rendered in the first step only, the slot buttons only once a date is
    chosen, and the back button in the payment step.  The modal can be
    opened and closed in every step, and the payment, being awaited, can
    end in every step. *)
Definition offered (g : Gesture) (m : Modal) : bool :=
  match g with
  | Open | Close | Paid => true
  | SelectDate _ | Decrement | Increment | SubmitForm =>
      bool_decide (step m = form_step)
  | SelectTime _ =>
      bool_decide (step m = form_step) && nonempty (form_date (form m))
  | Back => bool_decide (step m = payment_step)
  end.

(** The states of the wizard reached through offered gestures. *)
Inductive reachable : Modal → Prop :=
| reachable_open : reachable openModal
| reachable_gesture (g : Gesture) (m : Modal) :
    reachable m → offered g m = true → reachable (gesture g m).

(** *** What a sequence of operations leaves of its bookings *)

(** Every field of a booking but its status. *)
Definition receipt (b : Booking.t)
    : string * string * string * string * number * number * string :=
  (Booking.id b, Booking.listingId b, Booking.date b, Booking.time b,
   Booking.participants b, Booking.totalPrice b, Booking.createdAt b).

(** The records the [createBooking] calls of a sequence create, in
    order. *)
Definition createdBy (os : list Op) : list Booking.t :=
  omap (λ o, match o with
             | CreateBooking now isoNow b => Some (newBooking now isoNow b)
             | _ => None
             end) os.

(** An operation of [api.ts], as opposed to the hypothetical price
    change. *)
Definition api_op (o : Op) : bool :=
  match o with SetListingPrice _ _ => false | _ => true end.

(** The test a listing passes to stay in [filteredListings]: one conjunct
    for each guarded [filter] pass. *)
Definition passes
    (calculateDistance : number → number → number → number → option number)
    (f : ListingFilters) (l : Listing.t) : Prop :=
  (∀ c, f_category f = Some c → Listing.category l = c)
  ∧ (∀ m, f_minPrice f = Some m → truthy m = true →
          (m <= Listing.price l)%Q)
  ∧ (∀ m, f_maxPrice f = Some m → truthy m = true →
          (Listing.price l <= m)%Q)
  ∧ (∀ m, f_minRating f = Some m → truthy m = true →
          (m <= Listing.rating l)%Q)
  ∧ (∀ g, f_location f = Some g →
      ∃ d, calculateDistance (GeoFilter.lat g) (GeoFilter.lng g)
             (Location.lat (Listing.location l))
             (Location.lng (Listing.location l)) = Some d
           ∧ (d <= GeoFilter.radius g)%Q).

(** The status of a booking after an operation: as before, or
    [cancelled]. *)
Definition status_step (b b' : Booking.t) : Prop :=
  Booking.status b' = Booking.status b ∨ Booking.status b' = cancelled.

(** An instance of [trim] on the ASCII white space, for concrete runs. *)
Fixpoint trimStart (s : string) : string :=
  match s with
  | String c s' => if Ascii.is_space c then trimStart s' else s
  | EmptyString => EmptyString
  end.

Definition ascii_trim (s : string) : string :=
  String.rev (trimStart (String.rev (trimStart s))).

(** What holds of the explore page while browsing, after [n] uses of the
    load-more button, for the filtered list [fl]. *)
Definition browsing (fl : list Listing.t) (n : nat) (ex : Explore) : Prop :=
  1 ≤ ex_page ex ≤ Z.of_nat n + 1
  ∧ ex_listings ex = take (Z.to_nat (12 * ex_page ex)) fl
  ∧ ex_hasMore ex = (12 * ex_page ex <? Z.of_nat (length fl))
  ∧ (ex_page ex = Z.of_nat n + 1 ∨ ex_hasMore ex = false)
  ∧ (ex_page ex = 1 ∨ 12 * (ex_page ex - 1) < Z.of_nat (length fl)).

(** * Properties *)

(** ** Wishlist *)

Lemma wl_includes_true (w : list string) (x : string) :
  wl_includes w x = true ↔ x ∈ w.
Proof. unfold wl_includes. apply bool_decide_eq_true. Qed.

Lemma wl_add_present (x : string) (w : list string) :
  x ∈ w → wl_add x w = w.
Proof.
  intros Hx. unfold wl_add.
  by rewrite (proj2 (wl_includes_true w x) Hx).
Qed.

Lemma wl_add_elem (x : string) (w : list string) : x ∈ wl_add x w.
Proof.
  unfold wl_add. destruct (wl_includes w x) eqn:E.
  - by apply wl_includes_true.
  - apply elem_of_app. right. by apply list_elem_of_singleton.
Qed.

Lemma wl_remove_absent (x : string) (w : list string) :
  x ∉ w → wl_remove x w = w.
Proof.
  unfold wl_remove. induction w as [|y w IH]; intros Hx; [done|].
  apply not_elem_of_cons in Hx as [Hxy Hw].
  rewrite filter_cons_True by congruence. by rewrite IH.
Qed.

Lemma wl_remove_gone (x : string) (w : list string) : x ∉ wl_remove x w.
Proof.
  unfold wl_remove. rewrite list_elem_of_filter. by intros [? _].
Qed.

Lemma wl_add_NoDup (x : string) (w : list string) :
  NoDup w → NoDup (wl_add x w).
Proof.
  intros Hw. unfold wl_add. destruct (wl_includes w x) eqn:E; [done|].
  apply NoDup_app. split_and!; [done| |apply NoDup_singleton].
  intros y Hy ->%list_elem_of_singleton.
  apply wl_includes_true in Hy. congruence.
Qed.

Lemma wl_remove_NoDup (x : string) (w : list string) :
  NoDup w → NoDup (wl_remove x w).
Proof. apply NoDup_filter; apply _. Qed.

Lemma set_wishlist_same (st : Store) :
  set_wishlist (User.wishlist (mockUser st)) st = st.
Proof. by destruct st as [ls [w bs p]]. Qed.

Lemma run_wishlist_NoDup (o : Op) (st : Store) :
  NoDup (User.wishlist (mockUser st)) →
  NoDup (User.wishlist (mockUser (run o st))).
Proof.
  intros Hw. destruct o; simpl; try done.
  - by apply wl_add_NoDup.
  - by apply wl_remove_NoDup.
  - unfold cancelBooking. by destruct (list_find _ _) as [[i b]|].
Qed.

(** C7.  The wishlist operations are idempotent: adding an id twice
    leaves the store as adding it once does, adding an id that is already
    present changes nothing (no duplicate is pushed), and removing an id
    that is not in the wishlist changes nothing. *)
Theorem wishlist_idempotent (listingId : string) (st : Store) :
  addToWishlist listingId (addToWishlist listingId st)
    = addToWishlist listingId st
  ∧ (listingId ∈ User.wishlist (mockUser st) →
       addToWishlist listingId st = st)
  ∧ (listingId ∉ User.wishlist (mockUser st) →
       removeFromWishlist listingId st = st).
Proof.
  split_and!.
  - unfold addToWishlist at 1 3. simpl.
    by rewrite (wl_add_present _ _ (wl_add_elem listingId _)).
  - intros Hin. unfold addToWishlist.
    rewrite wl_add_present by done. apply set_wishlist_same.
  - intros Hout. unfold removeFromWishlist.
    rewrite wl_remove_absent by done. apply set_wishlist_same.
Qed.

Lemma wishlist_idempotent_witness :
  addToWishlist "listing-1" (addToWishlist "listing-1" store0)
    = addToWishlist "listing-1" store0
  ∧ addToWishlist "listing-1" (addToWishlist "listing-1" store0)
    = addToWishlist "listing-1" store0
  ∧ removeFromWishlist "listing-2" (addToWishlist "listing-1" store0)
    = addToWishlist "listing-1" store0.
Proof.
  split_and!.
  - exact (proj1 (wishlist_idempotent "listing-1" store0)).
  - apply (proj1 (proj2 (wishlist_idempotent "listing-1"
                           (addToWishlist "listing-1" store0)))).
    vm_compute. apply list_elem_of_here.
  - apply (proj2 (proj2 (wishlist_idempotent "listing-2"
                           (addToWishlist "listing-1" store0)))).
    vm_compute. intros H. by apply list_elem_of_singleton in H.
Defined.

(** C10.  A wishlist without duplicates stays without duplicates under
    every sequence of operations on the store, [addToWishlist] and
    [removeFromWishlist] among them; [addToWishlist] leaves a wishlist
    that already holds the id as it is, and after [removeFromWishlist]
    no occurrence of the id is left. *)
Theorem wishlist_NoDup (os : list Op) (st : Store) :
  NoDup (User.wishlist (mockUser st)) →
  NoDup (User.wishlist (mockUser (run_all os st)))
  ∧ (∀ i, i ∈ User.wishlist (mockUser st) →
          User.wishlist (mockUser (addToWishlist i st))
            = User.wishlist (mockUser st))
  ∧ (∀ i, i ∉ User.wishlist (mockUser (removeFromWishlist i st))).
Proof.
  intros Hw. split_and!.
  - revert st Hw. unfold run_all.
    induction os as [|o os IH]; intros st Hw; simpl; [done|].
    apply IH. by apply run_wishlist_NoDup.
  - intros i Hi. simpl. by apply wl_add_present.
  - intros i. simpl. apply wl_remove_gone.
Qed.

Lemma wishlist_NoDup_witness :
  NoDup (User.wishlist (mockUser
    (run_all [AddToWishlist "listing-1"; AddToWishlist "listing-1";
              RemoveFromWishlist "listing-2"; AddToWishlist "listing-2"]
             store0)))
  ∧ User.wishlist (mockUser
      (addToWishlist "listing-1" (addToWishlist "listing-1" store0)))
    = ["listing-1"].
Proof.
  split.
  - apply (wishlist_NoDup _ store0). vm_compute. apply NoDup_nil_2.
  - apply (proj1 (proj2 (wishlist_NoDup [] (addToWishlist "listing-1" store0)
                           (NoDup_singleton "listing-1")))).
    vm_compute. apply list_elem_of_here.
Defined.

(** ** Cancelling a booking *)

Lemma set_status_id (s : Status) (b : Booking.t) :
  Booking.id (Booking.set_status s b) = Booking.id b.
Proof. done. Qed.

Lemma set_status_totalPrice (s : Status) (b : Booking.t) :
  Booking.totalPrice (Booking.set_status s b) = Booking.totalPrice b.
Proof. done. Qed.

Lemma set_status_twice (s : Status) (b : Booking.t) :
  Booking.set_status s (Booking.set_status s b) = Booking.set_status s b.
Proof. done. Qed.

(** Overwriting the status at one position keeps every id in place. *)
Lemma ids_insert_status (bs : list Booking.t) (i : nat) (b : Booking.t)
    (s : Status) :
  bs !! i = Some b →
  Booking.id <$> <[i := Booking.set_status s b]> bs = Booking.id <$> bs.
Proof.
  intros Hi. rewrite list_fmap_insert, set_status_id.
  apply list_insert_id. by rewrite list_lookup_fmap, Hi.
Qed.

Lemma totalPrices_insert_status (bs : list Booking.t) (i : nat)
    (b : Booking.t) (s : Status) :
  bs !! i = Some b →
  Booking.totalPrice <$> <[i := Booking.set_status s b]> bs
    = Booking.totalPrice <$> bs.
Proof.
  intros Hi. rewrite list_fmap_insert, set_status_totalPrice.
  apply list_insert_id. by rewrite list_lookup_fmap, Hi.
Qed.

Lemma cancelBooking_found (x : string) (st : Store) (i : nat)
    (b : Booking.t) :
  list_find (λ b, Booking.id b = x) (getBookings st) = Some (i, b) →
  cancelBooking x st
    = set_bookings (<[i := Booking.set_status cancelled b]> (getBookings st))
                   st.
Proof. unfold cancelBooking, getBookings. by intros ->. Qed.

Lemma cancelBooking_not_found (x : string) (st : Store) :
  list_find (λ b, Booking.id b = x) (getBookings st) = None →
  cancelBooking x st = st.
Proof. unfold cancelBooking, getBookings. by intros ->. Qed.

Lemma cancelBooking_idempotent (x : string) (st : Store) :
  cancelBooking x (cancelBooking x st) = cancelBooking x st.
Proof.
  destruct (list_find (λ b, Booking.id b = x) (getBookings st))
    as [[i b]|] eqn:Hfind.
  - rewrite (cancelBooking_found _ _ _ _ Hfind).
    pose proof Hfind as (Hi & Hid & Hfirst)%list_find_Some.
    assert (Hi' : (i < length (getBookings st))%nat)
      by by eapply lookup_lt_Some.
    set (bs' := <[i := Booking.set_status cancelled b]> (getBookings st)).
    assert (Hfind' : list_find (λ b, Booking.id b = x) bs'
                     = Some (i, Booking.set_status cancelled b)).
    { apply list_find_Some. split_and!.
      - unfold bs'. by apply list_lookup_insert_eq.
      - done.
      - intros j y Hj Hlt. unfold bs' in Hj.
        rewrite list_lookup_insert_ne in Hj by lia. by eapply Hfirst. }
    unfold cancelBooking at 1. simpl. fold bs'. rewrite Hfind'.
    unfold set_bookings. simpl. do 2 f_equal.
    unfold bs'. rewrite list_insert_insert_eq. by rewrite set_status_twice.
  - by rewrite !(cancelBooking_not_found _ _ Hfind).
Qed.

(** C5.  [cancelBooking] leaves the whole store as it is when no booking
    has the id; otherwise the first booking with the id gets the status
    [cancelled], whatever its status was, and nothing else changes.  A
    second call changes nothing more, and in every case the collection
    keeps its bookings: the same ids at the same positions. *)
Theorem cancelBooking_spec (bookingId : string) (st : Store) :
  ((∀ b, b ∈ getBookings st → Booking.id b ≠ bookingId) →
     cancelBooking bookingId st = st)
  ∧ (∀ i b,
       getBookings st !! i = Some b →
       Booking.id b = bookingId →
       (∀ j b', getBookings st !! j = Some b' → (j < i)%nat →
                Booking.id b' ≠ bookingId) →
       cancelBooking bookingId st
         = set_bookings
             (<[i := Booking.set_status cancelled b]> (getBookings st)) st
       ∧ Booking.status <$> getBookings (cancelBooking bookingId st) !! i
         = Some cancelled)
  ∧ cancelBooking bookingId (cancelBooking bookingId st)
      = cancelBooking bookingId st
  ∧ Booking.id <$> getBookings (cancelBooking bookingId st)
      = Booking.id <$> getBookings st
  ∧ length (getBookings (cancelBooking bookingId st))
      = length (getBookings st).
Proof.
  split_and!.
  - intros Habsent. apply cancelBooking_not_found.
    apply list_find_None, Forall_forall. exact Habsent.
  - intros i b Hi Hid Hfirst.
    assert (Hfind : list_find (λ b, Booking.id b = bookingId)
                      (getBookings st) = Some (i, b)).
    { apply list_find_Some. split_and!; [done..|].
      intros j y Hj Hlt. by eapply Hfirst. }
    rewrite (cancelBooking_found _ _ _ _ Hfind). split; [done|].
    unfold getBookings at 1. simpl.
    rewrite list_lookup_insert_eq by by eapply lookup_lt_Some. done.
  - apply cancelBooking_idempotent.
  - destruct (list_find (λ b, Booking.id b = bookingId) (getBookings st))
      as [[i b]|] eqn:Hfind.
    + rewrite (cancelBooking_found _ _ _ _ Hfind).
      apply list_find_Some in Hfind as (Hi & _ & _).
      unfold getBookings at 1. simpl. by apply ids_insert_status.
    + by rewrite (cancelBooking_not_found _ _ Hfind).
  - destruct (list_find (λ b, Booking.id b = bookingId) (getBookings st))
      as [[i b]|] eqn:Hfind.
    + rewrite (cancelBooking_found _ _ _ _ Hfind).
      unfold getBookings at 1. simpl. apply length_insert.
    + by rewrite (cancelBooking_not_found _ _ Hfind).
Qed.

Lemma cancelBooking_spec_witness :
  cancelBooking "booking-7" store1 = store1
  ∧ Booking.status <$> getBookings store1 !! 0%nat = Some confirmed
  ∧ Booking.status <$>
      getBookings (cancelBooking "booking-1748786400000" store1) !! 0%nat
    = Some cancelled.
Proof.
  split_and!.
  - apply (proj1 (cancelBooking_spec "booking-7" store1)).
    intros b Hb. vm_compute in Hb.
    apply list_elem_of_singleton in Hb as ->. vm_compute. discriminate.
  - reflexivity.
  - refine (proj2 (proj1 (proj2
      (cancelBooking_spec "booking-1748786400000" store1)) 0%nat
      (newBooking 1748786400000 "2025-06-01T14:00:00.000Z"
         jazzInput) _ _ _)).
    + reflexivity.
    + reflexivity.
    + intros j b' _ Hj. lia.
Defined.

(** ** Creating a booking *)

Lemma bookingId_inj (n1 n2 : Z) : bookingId n1 = bookingId n2 → n1 = n2.
Proof.
  unfold bookingId. simpl. intros H. injection H as H.
  by apply (inj pretty).
Qed.

Lemma max1_ge (x : number) : (1 <= max1 x)%Q.
Proof.
  unfold max1. destruct (Qle_bool 1 x) eqn:E.
  - by apply Qle_bool_iff.
  - apply Qle_refl.
Qed.

(** The form never holds fewer than one participant. *)
Lemma gesture_participants (g : Gesture) (m : Modal) :
  (1 <= form_participants (form m))%Q →
  (1 <= form_participants (form (gesture g m)))%Q.
Proof.
  intros Hm. destruct g; simpl; try done.
  - apply max1_ge.
  - apply Qle_trans with (1 := Hm).
    rewrite <- (Qplus_0_r (form_participants (form m))) at 1.
    by apply Qplus_le_r.
  - by destruct (_ && _).
Qed.

Lemma gestures_participants (gs : list Gesture) (m : Modal) :
  (1 <= form_participants (form m))%Q →
  (1 <= form_participants (form (gestures gs m)))%Q.
Proof.
  revert m. unfold gestures.
  induction gs as [|g gs IH]; intros m Hm; simpl; [done|].
  by apply IH, gesture_participants.
Qed.

(** C1, as the code has it.  [createBooking] validates nothing and has no
    failing path: whatever the participant count and the listing id, it
    keeps the caller's fields, the total price among them, sets the id to
    [booking-] followed by the millisecond clock and the creation time to
    the clock's ISO rendering, appends the record after the user's
    bookings, touches nothing else and returns the record.  Ids assigned
    at different clock readings differ.  The total price is computed by
    the booking form, which never holds fewer than one participant: it is
    the binary64 product of the listing's price and the participant
    count, and whenever that product is a finite number the form passes
    it on together with its participant count. *)
Theorem createBooking_amended (now : Z) (isoNow : string)
    (input : BookingInput.t) (st : Store) :
  let b := fst (createBooking now isoNow input st) in
  let st' := snd (createBooking now isoNow input st) in
  (Booking.listingId b = BookingInput.listingId input
   ∧ Booking.date b = BookingInput.date input
   ∧ Booking.time b = BookingInput.time input
   ∧ Booking.participants b = BookingInput.participants input
   ∧ Booking.status b = BookingInput.status input
   ∧ Booking.totalPrice b = BookingInput.totalPrice input)
  ∧ Booking.id b = "booking-" +:+ pretty now
  ∧ Booking.createdAt b = isoNow
  ∧ getBookings st' = getBookings st ++ [b]
  ∧ mockListings st' = mockListings st
  ∧ User.wishlist (mockUser st') = User.wishlist (mockUser st)
  ∧ User.preferences (mockUser st') = User.preferences (mockUser st)
  ∧ (∀ now2 isoNow2 input2 st2,
       now2 ≠ now →
       Booking.id (fst (createBooking now2 isoNow2 input2 st2))
         ≠ Booking.id b)
  ∧ (∀ listing gs,
       let f := form (gestures gs openModal) in
       (1 <= form_participants f)%Q
       ∧ ∀ total,
           Binary64.to_number
             (Binary64.mul (Binary64.of_number (Listing.price listing))
                (Binary64.of_number (form_participants f))) = Some total →
           ∃ input',
             paymentInput listing f = Some input'
             ∧ BookingInput.totalPrice input' = total
             ∧ BookingInput.participants input' = form_participants f
             ∧ BookingInput.listingId input' = Listing.id listing
             ∧ BookingInput.status input' = confirmed).
Proof.
  simpl. split_and!; try done.
  - intros now2 _ _ _ Hne Heq. by apply Hne, bookingId_inj.
  - intros listing gs. split; [by apply gestures_participants|].
    intros total Htotal. unfold paymentInput, modalTotalPrice, times.
    rewrite Htotal. by eexists.
Qed.

Lemma createBooking_amended_witness :
  Booking.id (fst (createBooking 2 "1970-01-01T00:00:00.002Z"
                     jazzInput store1))
    ≠ Booking.id (fst (createBooking 1 "1970-01-01T00:00:00.001Z"
                         jazzInput store0))
  ∧ ∃ input',
      paymentInput jazz
        (form (gestures [SelectDate "2025-06-01"; SelectTime "14:00";
                         Increment; Increment] openModal))
        = Some input'
      ∧ BookingInput.totalPrice input' = 1200%Q.
Proof.
  pose proof (createBooking_amended 1 "1970-01-01T00:00:00.001Z"
                jazzInput store0)
    as (_ & _ & _ & _ & _ & _ & _ & Hid & Hform).
  split.
  - apply (Hid 2 "1970-01-01T00:00:00.002Z"
             jazzInput store1).
    lia.
  - destruct (Hform jazz [SelectDate "2025-06-01"; SelectTime "14:00";
                          Increment; Increment]) as [_ Htotal].
    destruct (Htotal 1200%Q) as (input' & Hin & Hprice & _).
    + vm_compute. reflexivity.
    + exists input'. split; [exact Hin|exact Hprice].
Defined.

(** C1, as stated, fails on the code: with no participant the
    specification's wording gives [InvalidInput], and [createBooking]
    appends the booking all the same; and the stored total price is the
    caller's number, not the listing's price times the participants. *)
Lemma createBooking_no_validation :
  let none :=
    BookingInput.mk "listing-3" "2025-06-01" "14:00" 0%Q confirmed 0%Q in
  let odd :=
    BookingInput.mk "listing-3" "2025-06-01" "14:00" 2%Q confirmed 1%Q in
  let iso := "2025-06-01T14:00:00.000Z" in
  createBooking_as_specified 1748786400000 iso "listing-3" "2025-06-01"
    "14:00" 0%Q confirmed store0 = inl InvalidInput
  ∧ getBookings (snd (createBooking 1748786400000 iso none store0))
    = [Booking.mk "booking-1748786400000" "listing-3" "2025-06-01" "14:00"
         0%Q confirmed 0%Q iso]
  ∧ createBooking_as_specified 1748786400000 iso "listing-3" "2025-06-01"
      "14:00" 0%Q confirmed store0
    ≠ inr (createBooking 1748786400000 iso none store0)
  ∧ createBooking_as_specified 1748786400000 iso "listing-3" "2025-06-01"
      "14:00" 2%Q confirmed store0
    ≠ inr (createBooking 1748786400000 iso odd store0)
  ∧ Booking.totalPrice (fst (createBooking 1748786400000 iso odd store0))
    = 1%Q
  ∧ times (Listing.price jazz) 2%Q = Some 800%Q.
Proof.
  split_and!; try reflexivity; vm_compute; discriminate.
Qed.

(** ** The total price of a booking is frozen *)

Section Frozen.

Context {A : Type} (f : Booking.t → A).
Hypothesis f_status : ∀ s b, f (Booking.set_status s b) = f b.

Lemma run_keeps (o : Op) (st : Store) :
  (f <$> getBookings st) `prefix_of` (f <$> getBookings (run o st)).
Proof.
  destruct o; simpl; try done.
  - unfold getBookings. simpl. rewrite fmap_app. by apply prefix_app_r.
  - unfold cancelBooking.
    destruct (list_find _ _) as [[i b]|] eqn:Hfind; [|done].
    apply list_find_Some in Hfind as (Hi & _ & _).
    unfold getBookings. simpl. rewrite list_fmap_insert, f_status.
    rewrite list_insert_id; [done|]. by rewrite list_lookup_fmap, Hi.
Qed.

Lemma run_all_keeps (os : list Op) (st : Store) :
  (f <$> getBookings st) `prefix_of` (f <$> getBookings (run_all os st)).
Proof.
  revert st. unfold run_all.
  induction os as [|o os IH]; intros st; simpl; [done|].
  etrans; [apply (run_keeps o)|apply IH].
Qed.

End Frozen.

(** C6.  The total price of a booking is fixed when [createBooking]
    returns: after any further sequence of operations on the store, the
    hypothetical change of a listing's price included, the booking sits at
    the same position with the same id and the same total price, and so do
    all bookings made before it. *)
Theorem totalPrice_frozen (now : Z) (isoNow : string)
    (input : BookingInput.t) (st : Store) (os : list Op) :
  let created := createBooking now isoNow input st in
  let after := run_all os (snd created) in
  let i := length (getBookings st) in
  getBookings (snd created) !! i = Some (fst created)
  ∧ Booking.totalPrice (fst created) = BookingInput.totalPrice input
  ∧ Booking.totalPrice <$> getBookings after !! i
    = Some (BookingInput.totalPrice input)
  ∧ Booking.id <$> getBookings after !! i = Some (Booking.id (fst created))
  ∧ (Booking.totalPrice <$> getBookings (snd created))
      `prefix_of` (Booking.totalPrice <$> getBookings after).
Proof.
  intros created after i.
  assert (Hi : getBookings (snd created) !! i = Some (fst created)).
  { unfold created, getBookings, i. simpl.
    by rewrite lookup_app_r, Nat.sub_diag. }
  assert (Hkeep : ∀ {A} (f : Booking.t → A),
             (∀ s b, f (Booking.set_status s b) = f b) →
             f <$> getBookings after !! i = Some (f (fst created))).
  { intros A f Hf. rewrite <- list_lookup_fmap.
    eapply prefix_lookup_Some; [|by apply run_all_keeps].
    by rewrite list_lookup_fmap, Hi. }
  split_and!.
  - done.
  - done.
  - by apply (Hkeep _ Booking.totalPrice).
  - by apply (Hkeep _ Booking.id).
  - by apply run_all_keeps.
Qed.

(** ** Pagination *)

Lemma slice_window {A} (l : list A) (start limit : Z) :
  0 ≤ start → 0 ≤ limit →
  slice l start (start + limit)
    = take (Z.to_nat limit) (drop (Z.to_nat start) l).
Proof.
  intros Hs Hl. unfold slice, relative_index.
  destruct (Z.ltb_spec start 0) as [?|_]; [lia|].
  destruct (Z.ltb_spec (start + limit) 0) as [?|_]; [lia|].
  destruct (Z_le_gt_dec (Z.of_nat (length l)) start) as [Hge|Hlt].
  - rewrite (drop_ge l (Z.to_nat start)) by lia.
    rewrite (drop_ge l (Z.to_nat (start `min` _))) by lia.
    by rewrite !take_nil.
  - rewrite (Z.min_l start) by lia.
    destruct (Z_le_gt_dec (start + limit) (Z.of_nat (length l))).
    + rewrite Z.min_l by lia. do 2 f_equal. lia.
    + rewrite Z.min_r by lia.
      rewrite !take_ge; [done|rewrite length_drop; lia..].
Qed.

Lemma lookup_window {A} (l : list A) (start limit : Z) (i : nat) :
  0 ≤ start → 0 ≤ limit →
  slice l start (start + limit) !! i
    = if decide (Z.of_nat i < limit) then l !! (Z.to_nat start + i)%nat
      else None.
Proof.
  intros Hs Hl. rewrite slice_window by done.
  rewrite lookup_take, lookup_drop.
  destruct (decide (i < Z.to_nat limit)%nat), (decide (Z.of_nat i < limit));
    done || lia.
Qed.

Lemma pageCount_covers (n limit : Z) :
  0 ≤ n → 1 ≤ limit →
  0 ≤ pageCount n limit ∧ n ≤ pageCount n limit * limit
  ∧ (pageCount n limit - 1) * limit < n + (if decide (n = 0) then 1 else 0).
Proof.
  intros Hn Hl. unfold pageCount.
  pose proof (Z.div_mod (n + limit - 1) limit ltac:(lia)) as Hdm.
  pose proof (Z.mod_pos_bound (n + limit - 1) limit ltac:(lia)) as Hb.
  split_and!.
  - apply Z.div_pos; lia.
  - nia.
  - case_decide; nia.
Qed.

Section Listings.

Variable calculateDistance :
  number → number → number → number → option number.

(** C3.  For [page >= 1] and [limit >= 1] the page holds the items of
    the filtered list at the positions [(page-1)*limit] up to, not
    including, [page*limit]; [total] is the length of the filtered list;
    [hasMore] holds exactly when [page*limit] is below that length; and a
    page that starts at or after the end is empty with [hasMore] false. *)
Theorem getListings_page (filters : option ListingFilters) (page limit : Z)
    (st : Store) :
  1 ≤ page → 1 ≤ limit →
  let r := getListings calculateDistance filters page limit st in
  let fl := filteredListings calculateDistance filters st in
  (∀ i : nat,
     data r !! i
       = if decide (Z.of_nat i < limit)
         then fl !! (Z.to_nat ((page - 1) * limit) + i)%nat
         else None)
  ∧ total r = Z.of_nat (length fl)
  ∧ (hasMore r = true ↔ page * limit < Z.of_nat (length fl))
  ∧ (Z.of_nat (length fl) ≤ (page - 1) * limit →
       data r = [] ∧ hasMore r = false).
Proof.
  intros Hp Hl r fl. unfold r, getListings. simpl. fold fl.
  split_and!.
  - intros i. apply lookup_window; nia.
  - done.
  - rewrite Z.ltb_lt.
    by replace ((page - 1) * limit + limit) with (page * limit) by ring.
  - intros Hpast. split.
    + rewrite slice_window by nia. by rewrite drop_ge, take_nil by lia.
    + apply Z.ltb_ge. lia.
Qed.

Lemma filteredListings_sublist (filters : option ListingFilters)
    (st : Store) :
  filteredListings calculateDistance filters st `sublist_of` mockListings st.
Proof.
  destruct filters as [f|]; simpl; [|done].
  unfold by_location, by_minRating, by_maxPrice, by_minPrice, by_category.
  repeat match goal with
  | |- context [match ?o with Some _ => _ | None => _ end] => destruct o
  | |- context [if truthy ?m then _ else _] => destruct (truthy m)
  | |- filter _ _ `sublist_of` _ => etrans; [apply sublist_filter|]
  end; done.
Qed.

Lemma pages_take (filters : option ListingFilters) (limit : Z) (st : Store)
    (k : nat) :
  1 ≤ limit →
  allPages calculateDistance filters limit st (Z.of_nat k)
    = take (k * Z.to_nat limit) (filteredListings calculateDistance filters st).
Proof.
  intros Hl. unfold allPages. induction k as [|k IH].
  - done.
  - rewrite seqZ_S, fmap_app, concat_app, IH. simpl.
    rewrite app_nil_r.
    replace (1 + Z.of_nat k - 1) with (Z.of_nat k) by lia.
    rewrite slice_window by lia.
    replace (Z.to_nat (Z.of_nat k * limit)) with (k * Z.to_nat limit)%nat
      by lia.
    rewrite take_take_drop. f_equal. lia.
Qed.

(** C8.  Under an unchanging store and a fixed [limit >= 1], the pages
    [1 .. N], with [N] the ceiling of the filtered count over [limit],
    put end to end are the filtered list itself: every item once, at its
    place; and the filtered list keeps the order of the catalog. *)
Theorem pages_concat (filters : option ListingFilters) (limit : Z)
    (st : Store) :
  1 ≤ limit →
  let fl := filteredListings calculateDistance filters st in
  allPages calculateDistance filters limit st (pageCount (Z.of_nat (length fl)) limit) = fl
  ∧ fl `sublist_of` mockListings st.
Proof.
  intros Hl fl. split; [|apply filteredListings_sublist].
  destruct (pageCount_covers (Z.of_nat (length fl)) limit) as (HN & Hcov & _);
    [lia..|].
  rewrite <- (Z2Nat.id (pageCount _ _)) by done.
  rewrite pages_take by done. apply take_ge. nia.
Qed.

End Listings.

Lemma getListings_page_witness :
  data (getListings noDistance None 2 2 store0) = [jazz]
  ∧ total (getListings noDistance None 2 2 store0) = 3
  ∧ hasMore (getListings noDistance None 2 2 store0) = false
  ∧ data (getListings noDistance None 3 2 store0) = [].
Proof.
  pose proof (getListings_page noDistance None 2 2 store0 ltac:(lia) ltac:(lia))
    as (Hdata & Htotal & Hmore & _).
  pose proof (getListings_page noDistance None 3 2 store0 ltac:(lia) ltac:(lia))
    as (_ & _ & _ & Hpast).
  split_and!.
  - apply list_eq. intros i. rewrite Hdata.
    destruct i as [|[|i]]; [reflexivity..|].
    case_decide; [lia|done].
  - exact Htotal.
  - apply not_true_is_false. rewrite Hmore. vm_compute. discriminate.
  - apply Hpast. vm_compute. discriminate.
Defined.

Lemma pages_concat_witness :
  allPages noDistance None 2 store0 2 = [ricks; mosque; jazz].
Proof.
  exact (proj1 (pages_concat noDistance None 2 store0 ltac:(lia))).
Defined.


(** ** Filtering *)

Lemma elem_of_slice {A} (l : list A) (a b : Z) (x : A) :
  x ∈ slice l a b → x ∈ l.
Proof.
  unfold slice. intros Hx.
  by eapply subseteq_drop, subseteq_take.
Qed.

Section Filters.

Variable calculateDistance :
  number → number → number → number → option number.

Lemma by_category_sound (f : ListingFilters) (ls : list Listing.t)
    (l : Listing.t) :
  l ∈ by_category f ls →
  l ∈ ls ∧ ∀ c, f_category f = Some c → Listing.category l = c.
Proof.
  unfold by_category. destruct (f_category f) as [c|].
  - intros [Hc Hl]%list_elem_of_filter. split; [done|]. by intros ? [= <-].
  - naive_solver.
Qed.

Lemma by_minPrice_sound (f : ListingFilters) (ls : list Listing.t)
    (l : Listing.t) :
  l ∈ by_minPrice f ls →
  l ∈ ls ∧ ∀ m, f_minPrice f = Some m → truthy m = true →
                (m <= Listing.price l)%Q.
Proof.
  unfold by_minPrice. destruct (f_minPrice f) as [m|]; [|naive_solver].
  destruct (truthy m) eqn:Ht.
  - intros [Hc Hl]%list_elem_of_filter. split; [done|]. intros ? [= <-] _.
    by apply Qle_bool_iff, Is_true_true.
  - intros Hl. split; [done|]. intros ? [= <-]. congruence.
Qed.

Lemma by_maxPrice_sound (f : ListingFilters) (ls : list Listing.t)
    (l : Listing.t) :
  l ∈ by_maxPrice f ls →
  l ∈ ls ∧ ∀ m, f_maxPrice f = Some m → truthy m = true →
                (Listing.price l <= m)%Q.
Proof.
  unfold by_maxPrice. destruct (f_maxPrice f) as [m|]; [|naive_solver].
  destruct (truthy m) eqn:Ht.
  - intros [Hc Hl]%list_elem_of_filter. split; [done|]. intros ? [= <-] _.
    by apply Qle_bool_iff, Is_true_true.
  - intros Hl. split; [done|]. intros ? [= <-]. congruence.
Qed.

Lemma by_minRating_sound (f : ListingFilters) (ls : list Listing.t)
    (l : Listing.t) :
  l ∈ by_minRating f ls →
  l ∈ ls ∧ ∀ m, f_minRating f = Some m → truthy m = true →
                (m <= Listing.rating l)%Q.
Proof.
  unfold by_minRating. destruct (f_minRating f) as [m|]; [|naive_solver].
  destruct (truthy m) eqn:Ht.
  - intros [Hc Hl]%list_elem_of_filter. split; [done|]. intros ? [= <-] _.
    by apply Qle_bool_iff, Is_true_true.
  - intros Hl. split; [done|]. intros ? [= <-]. congruence.
Qed.

Lemma by_location_sound (f : ListingFilters) (ls : list Listing.t)
    (l : Listing.t) :
  l ∈ by_location calculateDistance f ls →
  l ∈ ls ∧ ∀ g, f_location f = Some g →
    ∃ d, calculateDistance (GeoFilter.lat g) (GeoFilter.lng g)
           (Location.lat (Listing.location l))
           (Location.lng (Listing.location l)) = Some d
         ∧ (d <= GeoFilter.radius g)%Q.
Proof.
  unfold by_location. destruct (f_location f) as [g|]; [|naive_solver].
  intros [Hc Hl]%list_elem_of_filter. split; [done|]. intros ? [= <-].
  unfold near, within in Hc.
  destruct (calculateDistance _ _ _ _) as [d|]; [|done].
  exists d. split; [done|]. by apply Qle_bool_iff, Is_true_true.
Qed.

(** What [getListings] guarantees of every listing it returns: it is a
    listing of the catalog that passes the test of every filter field
    that is truthy, which for a price or a rating bound means given and
    different from [0]. *)
Lemma getListings_sound (f : ListingFilters) (page limit : Z) (st : Store)
    (l : Listing.t) :
  l ∈ data (getListings calculateDistance (Some f) page limit st) →
  l ∈ mockListings st
  ∧ (∀ c, f_category f = Some c → Listing.category l = c)
  ∧ (∀ m, f_minPrice f = Some m → truthy m = true →
          (m <= Listing.price l)%Q)
  ∧ (∀ m, f_maxPrice f = Some m → truthy m = true →
          (Listing.price l <= m)%Q)
  ∧ (∀ m, f_minRating f = Some m → truthy m = true →
          (m <= Listing.rating l)%Q)
  ∧ (∀ g, f_location f = Some g →
      ∃ d, calculateDistance (GeoFilter.lat g) (GeoFilter.lng g)
             (Location.lat (Listing.location l))
             (Location.lng (Listing.location l)) = Some d
           ∧ (d <= GeoFilter.radius g)%Q).
Proof.
  simpl. intros Hl%elem_of_slice.
  apply by_location_sound in Hl as [Hl H5].
  apply by_minRating_sound in Hl as [Hl H4].
  apply by_maxPrice_sound in Hl as [Hl H3].
  apply by_minPrice_sound in Hl as [Hl H2].
  apply by_category_sound in Hl as [Hl H1].
  done.
Qed.

(** An absent filter field, and an absent filters object, filter nothing. *)
Lemma undefined_filters_noop (st : Store) :
  filteredListings calculateDistance None st = mockListings st
  ∧ filteredListings calculateDistance (Some noFilters) st = mockListings st.
Proof. done. Qed.

(** C2 at the input [{ maxPrice: 0 }]: the guard [if (filters.maxPrice)]
    takes the given bound [0] for an absent one, and the page returns the
    three listings of the catalog although none of them has a price of at
    most [0]. *)
Theorem getListings_maxPrice_zero :
  let f := mkFilters None None (Some 0%Q) None None None in
  data (getListings calculateDistance (Some f) 1 10 store0)
    = [ricks; mosque; jazz]
  ∧ Forall (λ l, ¬ (Listing.price l <= 0)%Q) [ricks; mosque; jazz].
Proof.
  split; [reflexivity|].
  repeat constructor; by vm_compute.
Qed.

End Filters.

(** ** Search *)

Lemma append_String (c : Ascii.ascii) (a b : string) :
  String c a +:+ b = String c (a +:+ b).
Proof. reflexivity. Qed.
Lemma prefix_true (a b : string) :
  String.prefix a b = true ↔ ∃ post, b = a +:+ post.
Proof.
  revert a. induction b as [|c b IH]; intros [|d a]; simpl.
  - split; [by exists ""|done].
  - split; [done|]. intros [post Hp]. by rewrite append_String in Hp.
  - split; [by eexists|done].
  - destruct (Ascii.ascii_dec d c) as [->|Hne].
    + rewrite IH. split; intros [post Hp]; exists post;
        rewrite append_String in *; congruence.
    + split; [done|]. intros [post Hp]. rewrite append_String in Hp.
      congruence.
Qed.

Lemma includes_occurs (s sub : string) :
  includes s sub = true ↔ occurs_in sub s.
Proof.
  unfold occurs_in. induction s as [|c s IH]; cbn [includes].
  - rewrite orb_false_r, prefix_true. split.
    + intros [post Hp]. by exists "", post.
    + intros ([|? pre] & post & Hp); [by exists post|].
      by rewrite append_String in Hp.
  - rewrite orb_true_iff, prefix_true, IH. split.
    + intros [[post Hp]|(pre & post & Hp)].
      * by exists "", post.
      * exists (String c pre), post. rewrite append_String. by rewrite Hp.
    + intros ([|d pre] & post & Hp).
      * left. by exists post.
      * right. exists pre, post. rewrite append_String in Hp. congruence.
Qed.

Lemma includes_empty (s : string) : includes s "" = true.
Proof. apply includes_occurs. by exists "", s. Qed.

Section Search.

Variable toLowerCase : string → string.
Hypothesis toLowerCase_empty : toLowerCase "" = "".

(** C4.  [searchListings] returns, in catalog order, exactly the listings
    of the catalog for which the lower-cased query occurs in the
    lower-cased title, French title, description or French description.
    Two queries with the same lower-casing therefore give the same result,
    and the empty query returns the whole catalog. *)
Theorem searchListings_spec (query : string) (st : Store) :
  (∀ l, l ∈ searchListings toLowerCase query st ↔
        l ∈ mockListings st
        ∧ (occurs_in (toLowerCase query) (toLowerCase (Listing.title l))
           ∨ occurs_in (toLowerCase query) (toLowerCase (Listing.titleFr l))
           ∨ occurs_in (toLowerCase query)
               (toLowerCase (Listing.description l))
           ∨ occurs_in (toLowerCase query)
               (toLowerCase (Listing.descriptionFr l))))
  ∧ searchListings toLowerCase query st `sublist_of` mockListings st
  ∧ (∀ query', toLowerCase query' = toLowerCase query →
       searchListings toLowerCase query' st
         = searchListings toLowerCase query st)
  ∧ searchListings toLowerCase "" st = mockListings st.
Proof.
  split_and!.
  - intros l. unfold searchListings. rewrite list_elem_of_filter.
    unfold matches. rewrite Is_true_true, !orb_true_iff, !includes_occurs.
    tauto.
  - apply sublist_filter.
  - intros query' Hq. unfold searchListings. by rewrite Hq.
  - unfold searchListings. rewrite toLowerCase_empty.
    induction (mockListings st) as [|l ls IH]; [done|].
    rewrite filter_cons_True; [by rewrite IH|].
    unfold matches. by rewrite includes_empty.
Qed.

End Search.

Lemma ascii_toLowerCase_empty : ascii_toLowerCase "" = "".
Proof. reflexivity. Qed.

Lemma searchListings_spec_witness :
  searchListings ascii_toLowerCase "JAZZ" store0
    = searchListings ascii_toLowerCase "jazz" store0
  ∧ searchListings ascii_toLowerCase "jazz" store0 = [jazz]
  ∧ searchListings ascii_toLowerCase "" store0 = [ricks; mosque; jazz].
Proof.
  pose proof (searchListings_spec ascii_toLowerCase ascii_toLowerCase_empty
                "jazz" store0) as (_ & _ & Hcase & _).
  pose proof (searchListings_spec ascii_toLowerCase ascii_toLowerCase_empty
                "" store0) as (_ & _ & _ & Hempty).
  split_and!.
  - apply Hcase. reflexivity.
  - reflexivity.
  - exact Hempty.
Defined.

(** ** The distance of the location filter *)

Lemma sub_diag (x : Binary64.t) :
  Binary64.is_finite x = true → Binary64.sub x x = Binary64.zero.
Proof.
  destruct x as [s|s| |s m e]; try done; intros _.
  - by destruct s.
  - unfold Binary64.sub, SpecFloat.SFsub.
    rewrite Z.min_id. unfold SpecFloat.shl_align. rewrite Z.sub_diag.
    reflexivity.
Qed.




Section Distance.

Variables sin cos : Binary64.t → Binary64.t.
Variable atan2 : Binary64.t → Binary64.t → Binary64.t.


End Distance.



(** ** Concrete runs *)

(** A category filter: one restaurant in the catalog, one page. *)
Example restaurants_first_page :
  getListings noDistance
    (Some (mkFilters (Some restaurant) None None None None None)) 1 10 store0
  = mkPage [ricks] 1 1 10 false.
Proof. reflexivity. Qed.

(** Both price bounds are inclusive. *)
Example price_bounds_inclusive :
  data (getListings noDistance
          (Some (mkFilters None (Some 130%Q) (Some 150%Q) None None None))
          1 10 store0)
  = [ricks; mosque].
Proof. reflexivity. Qed.

(** The price range [{ minPrice: 0, maxPrice: 100 }] of the filter
    drawer: the lower bound [0] is skipped, the upper bound applies. *)
Example under_100 :
  data (getListings noDistance
          (Some (mkFilters None (Some 0%Q) (Some 100%Q) None None None))
          1 10 store0)
  = [].
Proof. reflexivity. Qed.

(** A location filter keeps nothing when the distance is [NaN]. *)
Example nan_distance_filters_all :
  data (getListings (λ _ _ _ _, None)
          (Some (mkFilters None None None None None
                   (Some (GeoFilter.mk 0%Q 0%Q 5%Q))))
          1 10 store0)
  = [].
Proof. reflexivity. Qed.

(** Pages of two over the three listings. *)
Example two_pages :
  getListings noDistance None 1 2 store0 = mkPage [ricks; mosque] 3 1 2 true
  ∧ getListings noDistance None 2 2 store0 = mkPage [jazz] 3 2 2 false.
Proof. split; reflexivity. Qed.

(** The booking form's booking: three participants at 400. *)
Example june_booking :
  paymentInput jazz juneForm = Some jazzInput
  ∧ paymentInput ricks juneForm = Some ricksInput
  ∧ paymentInput mosque juneForm = Some mosqueInput
  ∧ Booking.id <$> getBookings store1 = ["booking-1748786400000"]
  ∧ Booking.listingId <$> getBookings store1 = ["listing-3"].
Proof. split_and!; reflexivity. Qed.

(** Prices are doubles.  Three participants at 0.1 cost
    0.30000000000000004, which is 1351079888211149 / 2^52 and not 3/10;
    bookings of 0.1 and 0.2 add up to the same number on the profile
    page; and on whole prices of this size both operations are exact. *)
Example binary64_prices :
  let tenth := formInput (with_price (1 # 10) jazz) juneForm in
  paymentInput (with_price (1 # 10) jazz) juneForm
    = Some (tenth (1351079888211149 # 4503599627370496))
  ∧ ¬ (1351079888211149 # 4503599627370496 == 3 # 10)%Q
  ∧ totalSpent
      [newBooking 1 "1970-01-01T00:00:00.001Z" (tenth (1 # 10));
       newBooking 2 "1970-01-01T00:00:00.002Z" (tenth (2 # 10))]
    = Some (1351079888211149 # 4503599627370496)
  ∧ times 400%Q 3%Q = Some 1200%Q
  ∧ plus 1200%Q 450%Q = Some 1650%Q.
Proof. split_and!; try reflexivity. vm_compute. discriminate. Qed.

(** The listing's price changes and the booking is cancelled: the total
    price stays. *)
Example june_booking_frozen :
  let after :=
    run_all [SetListingPrice "listing-3" 999%Q;
             CancelBooking "booking-1748786400000"] store1 in
  Listing.price <$> mockListings after = [150%Q; 130%Q; 999%Q]
  ∧ Booking.status <$> getBookings after = [cancelled]
  ∧ Booking.totalPrice <$> getBookings after
    = Booking.totalPrice <$> getBookings store1.
Proof. split_and!; reflexivity. Qed.

(** Two bookings created at the same clock reading share their id, and
    [cancelBooking] then reaches the first of them only. *)
Example same_millisecond :
  let twice :=
    run_all [CreateBooking 5 "1970-01-01T00:00:00.005Z" jazzInput;
             CreateBooking 5 "1970-01-01T00:00:00.005Z" ricksInput] store0 in
  Booking.id <$> getBookings twice = ["booking-5"; "booking-5"]
  ∧ Booking.status <$> getBookings (cancelBooking "booking-5" twice)
    = [cancelled; confirmed].
Proof. split; reflexivity. Qed.

(** Search is by lower-cased substring over the four text fields. *)
Example search_runs :
  searchListings ascii_toLowerCase "PIANO" store0 = [ricks]
  ∧ searchListings ascii_toLowerCase "visite" store0 = [mosque]
  ∧ searchListings ascii_toLowerCase "a" store0 = [ricks; mosque; jazz]
  ∧ searchListings ascii_toLowerCase "sushi" store0 = [].
Proof. split_and!; reflexivity. Qed.

(** The wishlist keeps insertion order and holds each id once. *)
Example wishlist_runs :
  User.wishlist (mockUser
    (run_all [AddToWishlist "listing-2"; AddToWishlist "listing-1";
              AddToWishlist "listing-2"] store0))
  = ["listing-2"; "listing-1"]
  ∧ getWishlist
      (run_all [AddToWishlist "listing-2"; AddToWishlist "listing-1";
                RemoveFromWishlist "listing-2"] store0)
    = [ricks].
Proof. split; reflexivity. Qed.

(** * Further properties of the data layer and of its callers *)

(** ** Looking a listing up *)

(** X1.  [getListing] answers [null] exactly when no listing of the
    catalog has the id; an answer is a listing of the catalog with that
    id; and when the ids of the catalog are pairwise distinct, every
    listing is the answer for its own id. *)
Theorem getListing_spec (st : Store) :
  (∀ i, getListing i st = None ↔
        ∀ l, l ∈ mockListings st → Listing.id l ≠ i)
  ∧ (∀ i l, getListing i st = Some l →
            l ∈ mockListings st ∧ Listing.id l = i)
  ∧ (NoDup (Listing.id <$> mockListings st) →
     ∀ l, l ∈ mockListings st → getListing (Listing.id l) st = Some l).
Proof.
  unfold getListing. split_and!.
  - intros i. rewrite fmap_None, list_find_None, Forall_forall. done.
  - intros i l Hl. apply fmap_Some in Hl as ([j l'] & Hfind & ->).
    apply list_find_Some in Hfind as (Hj & Hid & _). simpl. split; [|done].
    by eapply list_elem_of_lookup_2.
  - intros Hnd l Hl.
    apply list_elem_of_lookup in Hl as [i Hi].
    destruct (list_find (λ l0, Listing.id l0 = Listing.id l) (mockListings st))
      as [[j l']|] eqn:Hfind.
    + apply list_find_Some in Hfind as (Hj & Hid & _). simpl. f_equal.
      assert (i = j) as ->; [|congruence].
      eapply (NoDup_lookup _ _ _ (Listing.id l) Hnd);
        rewrite list_lookup_fmap.
      * by rewrite Hi.
      * by rewrite Hj, <- Hid.
    + rewrite list_find_None, Forall_forall in Hfind.
      destruct (Hfind l); [|done]. by eapply list_elem_of_lookup_2.
Qed.

Lemma getListing_spec_witness :
  (ricks ∈ mockListings store0 ∧ Listing.id ricks = "listing-1")
  ∧ getListing (Listing.id jazz) store0 = Some jazz.
Proof.
  split.
  - apply (proj1 (proj2 (getListing_spec store0)) "listing-1" ricks).
    reflexivity.
  - apply (proj2 (proj2 (getListing_spec store0))).
    + apply (bool_decide_unpack _). by vm_compute.
    + simpl. repeat constructor.
Defined.

(** ** The wishlist seen through the catalog *)

Lemma filter_ext_elem {A} (P Q : A → Prop) `{!∀ x, Decision (P x)}
    `{!∀ x, Decision (Q x)} (l : list A) :
  (∀ x, x ∈ l → P x ↔ Q x) → filter P l = filter Q l.
Proof.
  induction l as [|x l IH]; intros Hext; [done|].
  rewrite !filter_cons.
  rewrite IH by (intros y Hy; apply Hext; by right).
  pose proof (Hext x ltac:(by left)) as Hx.
  destruct (decide (P x)), (decide (Q x)); tauto || done.
Qed.

Lemma wl_includes_Is_true (w : list string) (x : string) :
  wl_includes w x ↔ x ∈ w.
Proof. unfold wl_includes. apply bool_decide_spec. Qed.

Lemma elem_of_getWishlist (st : Store) (l : Listing.t) :
  l ∈ getWishlist st ↔
  l ∈ mockListings st ∧ Listing.id l ∈ User.wishlist (mockUser st).
Proof.
  unfold getWishlist. rewrite list_elem_of_filter, wl_includes_Is_true. tauto.
Qed.

Lemma elem_of_wl_add (i x : string) (w : list string) :
  x ∈ wl_add i w ↔ x = i ∨ x ∈ w.
Proof.
  unfold wl_add. destruct (wl_includes w i) eqn:E.
  - apply wl_includes_true in E. split; [auto|]. by intros [->|?].
  - rewrite elem_of_app, list_elem_of_singleton. tauto.
Qed.

Lemma elem_of_wl_remove (i x : string) (w : list string) :
  x ∈ wl_remove i w ↔ x ≠ i ∧ x ∈ w.
Proof. unfold wl_remove. by rewrite list_elem_of_filter. Qed.

Lemma getWishlist_remove (i : string) (st : Store) :
  getWishlist (removeFromWishlist i st)
    = filter (λ l, Listing.id l ≠ i) (getWishlist st).
Proof.
  unfold getWishlist at 2. rewrite list_filter_filter.
  unfold getWishlist. simpl. apply list_filter_iff. intros l.
  rewrite !wl_includes_Is_true, elem_of_wl_remove. tauto.
Qed.

(** X2.  [getWishlist] returns, in catalog order, the listings of the
    catalog whose id is in the wishlist.  A listing of the catalog shows
    up once its id is added; an id that no listing has is stored without
    changing what [getWishlist] returns; and after a removal no listing
    with the removed id is returned. *)
Theorem getWishlist_spec (st : Store) :
  (∀ l, l ∈ getWishlist st ↔
        l ∈ mockListings st ∧ Listing.id l ∈ User.wishlist (mockUser st))
  ∧ getWishlist st `sublist_of` mockListings st
  ∧ (∀ l, l ∈ mockListings st →
          l ∈ getWishlist (addToWishlist (Listing.id l) st))
  ∧ (∀ i, (∀ l, l ∈ mockListings st → Listing.id l ≠ i) →
          getWishlist (addToWishlist i st) = getWishlist st
          ∧ i ∈ User.wishlist (mockUser (addToWishlist i st)))
  ∧ (∀ i l, l ∈ getWishlist (removeFromWishlist i st) → Listing.id l ≠ i).
Proof.
  split_and!.
  - apply elem_of_getWishlist.
  - apply sublist_filter.
  - intros l Hl. apply elem_of_getWishlist. split; [done|].
    simpl. apply wl_add_elem.
  - intros i Hi. split; [|simpl; apply wl_add_elem].
    unfold getWishlist. simpl. apply filter_ext_elem. intros l Hl.
    rewrite !wl_includes_Is_true, elem_of_wl_add.
    specialize (Hi l Hl). tauto.
  - intros i l. rewrite getWishlist_remove, list_elem_of_filter. tauto.
Qed.

Lemma getWishlist_spec_witness :
  jazz ∈ getWishlist (addToWishlist (Listing.id jazz) store0)
  ∧ getWishlist (addToWishlist "listing-9" store0) = getWishlist store0.
Proof.
  split.
  - apply (proj1 (proj2 (proj2 (getWishlist_spec store0)))).
    simpl. repeat constructor.
  - apply (proj1 (proj2 (proj2 (proj2 (getWishlist_spec store0))))
             "listing-9").
    intros l Hl. vm_compute in Hl.
    repeat (apply elem_of_cons in Hl as [->|Hl]; [by vm_compute|]).
    by apply elem_of_nil in Hl.
Defined.

Lemma filter_all {A} (P : A → Prop) `{!∀ x, Decision (P x)} (l : list A) :
  (∀ x, x ∈ l → P x) → filter P l = l.
Proof.
  induction l as [|x l IH]; intros Hall; [done|].
  rewrite filter_cons_True by (apply Hall; by left).
  rewrite IH; [done|]. intros y Hy. apply Hall. by right.
Qed.

Lemma filter_none {A} (P : A → Prop) `{!∀ x, Decision (P x)} (l : list A) :
  (∀ x, x ∈ l → ¬ P x) → filter P l = [].
Proof.
  induction l as [|x l IH]; intros Hnone; [done|].
  rewrite filter_cons_False by (apply Hnone; by left).
  apply IH. intros y Hy. apply Hnone. by right.
Qed.

Lemma getWishlist_remove_all (ls : list Listing.t) (st : Store) :
  getWishlist (foldl (λ st l, removeFromWishlist (Listing.id l) st) st ls)
    = filter (λ l, Listing.id l ∉ Listing.id <$> ls) (getWishlist st).
Proof.
  revert st. induction ls as [|x ls IH]; intros st; simpl.
  - symmetry. apply filter_all. intros l _. apply not_elem_of_nil.
  - rewrite IH, getWishlist_remove, list_filter_filter.
    apply list_filter_iff. intros l. rewrite not_elem_of_cons. tauto.
Qed.

(** X3.  The wishlist page keeps its list in step with the store: when
    the list shown is what [getWishlist] returns, it still is after
    [handleWishlistChange], whether or not it removes, and after
    [handleClearAll], which leaves nothing to show; neither touches the
    catalog. *)
Theorem wishlistPage_coherent (p : WishlistPage) :
  fst p = getWishlist (snd p) →
  (∀ i w, fst (handleWishlistChange i w p)
            = getWishlist (snd (handleWishlistChange i w p))
          ∧ mockListings (snd (handleWishlistChange i w p))
            = mockListings (snd p))
  ∧ fst (handleClearAll p) = getWishlist (snd (handleClearAll p))
  ∧ getWishlist (snd (handleClearAll p)) = []
  ∧ mockListings (snd (handleClearAll p)) = mockListings (snd p).
Proof.
  destruct p as [shown st]. simpl. intros ->.
  assert (Hnone : getWishlist
            (foldl (λ st l, removeFromWishlist (Listing.id l) st) st
                   (getWishlist st)) = []).
  { rewrite getWishlist_remove_all. apply filter_none.
    intros l Hl Hout. apply Hout, list_elem_of_fmap. by exists l. }
  split_and!.
  - intros i [|]; simpl; [done|]. by rewrite getWishlist_remove.
  - by rewrite Hnone.
  - done.
  - clear Hnone. generalize (getWishlist st). intros ls. revert st.
    induction ls as [|x ls IH]; intros st; simpl; [done|]. by rewrite IH.
Qed.

Lemma wishlistPage_coherent_witness :
  getWishlist (snd (handleClearAll
    (loadWishlist (addToWishlist "listing-3"
                     (addToWishlist "listing-1" store0))))) = [].
Proof.
  refine (proj1 (proj2 (proj2 (wishlistPage_coherent _ _)))).
  reflexivity.
Defined.

(** X4.  When the ids of the catalog are pairwise distinct, the wishlist
    page shows at most as many listings as the wishlist holds ids, the
    number the profile page displays. *)
Theorem wishlist_shown_le (st : Store) :
  NoDup (Listing.id <$> mockListings st) →
  (length (getWishlist st) ≤ length (User.wishlist (mockUser st)))%nat.
Proof.
  intros Hnd. rewrite <- (length_fmap Listing.id (getWishlist st)).
  apply submseteq_length, NoDup_submseteq.
  - apply (sublist_NoDup _ (Listing.id <$> mockListings st)); [done|].
    apply fmap_sublist, sublist_filter.
  - intros i (l & -> & Hl)%list_elem_of_fmap.
    by apply elem_of_getWishlist in Hl as [_ ?].
Qed.

Lemma wishlist_shown_le_witness :
  (length (getWishlist (addToWishlist "listing-9"
                          (addToWishlist "listing-1" store0)))
   ≤ length (User.wishlist (mockUser
               (addToWishlist "listing-9"
                  (addToWishlist "listing-1" store0)))))%nat.
Proof.
  apply wishlist_shown_le. apply (bool_decide_unpack _). by vm_compute.
Defined.

(** X5.  The heart button of the listing page leaves its flag equal to
    the membership of the listing in the wishlist, whatever the flag was
    before; when the flag was off although the listing was saved, the
    click changes nothing in the store. *)
Theorem handleWishlistClick_syncs (listingId : string) (isWishlisted : bool)
    (st : Store) :
  fst (handleWishlistClick listingId isWishlisted st)
    = wl_includes
        (User.wishlist
           (mockUser (snd (handleWishlistClick listingId isWishlisted st))))
        listingId
  ∧ (isWishlisted = false →
     listingId ∈ User.wishlist (mockUser st) →
     snd (handleWishlistClick listingId isWishlisted st) = st).
Proof.
  split.
  - destruct isWishlisted; simpl; symmetry.
    + apply bool_decide_eq_false, wl_remove_gone.
    + apply bool_decide_eq_true, wl_add_elem.
  - intros -> Hin. simpl. unfold addToWishlist.
    rewrite wl_add_present by done. apply set_wishlist_same.
Qed.

Lemma handleWishlistClick_syncs_witness :
  snd (handleWishlistClick "listing-1" false
         (addToWishlist "listing-1" store0))
    = addToWishlist "listing-1" store0.
Proof.
  apply (proj2 (handleWishlistClick_syncs "listing-1" false
                  (addToWishlist "listing-1" store0))).
  - reflexivity.
  - apply (bool_decide_unpack _). by vm_compute.
Defined.

(** ** Preferences *)

(** X6.  [updateUserPreferences] gives every key of its argument the
    argument's value and leaves every other key as it was; applying the
    same update twice equals applying it once; the wishlist, the bookings
    and the catalog are not touched. *)
Theorem updateUserPreferences_spec (p : gmap string string) (st : Store) :
  (∀ k, User.preferences (mockUser (updateUserPreferences p st)) !! k
        = match p !! k with
          | Some v => Some v
          | None => User.preferences (mockUser st) !! k
          end)
  ∧ updateUserPreferences p (updateUserPreferences p st)
    = updateUserPreferences p st
  ∧ User.wishlist (mockUser (updateUserPreferences p st))
    = User.wishlist (mockUser st)
  ∧ getBookings (updateUserPreferences p st) = getBookings st
  ∧ mockListings (updateUserPreferences p st) = mockListings st.
Proof.
  split_and!; try done.
  - intros k. simpl. rewrite lookup_union.
    destruct (p !! k), (User.preferences (mockUser st) !! k); done.
  - unfold updateUserPreferences, set_preferences. simpl.
    by rewrite (assoc_L (∪)), (idemp_L (∪)).
Qed.

(** ** The bookings under sequences of operations *)

Lemma receipt_set_status (s : Status) (b : Booking.t) :
  receipt (Booking.set_status s b) = receipt b.
Proof. done. Qed.

Lemma run_receipts (o : Op) (st : Store) :
  receipt <$> getBookings (run o st)
    = receipt <$> (getBookings st ++ createdBy [o]).
Proof.
  destruct o; simpl; rewrite ?app_nil_r; try done.
  unfold cancelBooking.
  destruct (list_find _ _) as [[i b]|] eqn:Hfind; [|done].
  apply list_find_Some in Hfind as (Hi & _ & _).
  unfold getBookings. simpl. rewrite list_fmap_insert, receipt_set_status.
  apply list_insert_id. by rewrite list_lookup_fmap, Hi.
Qed.

Lemma createdBy_cons (o : Op) (os : list Op) :
  createdBy (o :: os) = createdBy [o] ++ createdBy os.
Proof. unfold createdBy. by rewrite <- omap_app. Qed.

Lemma run_all_receipts (os : list Op) (st : Store) :
  receipt <$> getBookings (run_all os st)
    = receipt <$> (getBookings st ++ createdBy os).
Proof.
  revert st. unfold run_all.
  induction os as [|o os IH]; intros st.
  - simpl. by rewrite app_nil_r.
  - cbn [foldl]. rewrite IH, createdBy_cons, !fmap_app, run_receipts, fmap_app.
    by rewrite (assoc_L (++)).
Qed.

(** X7.  The bookings are append-only: after any sequence of operations
    the collection holds the bookings it held, followed by the records of
    the [createBooking] calls in call order, each with every field but
    its status as it was stored; so its length grows by the number of
    [createBooking] calls and by nothing else. *)
Theorem bookings_append_only (os : list Op) (st : Store) :
  receipt <$> getBookings (run_all os st)
    = receipt <$> (getBookings st ++ createdBy os)
  ∧ length (getBookings (run_all os st))
    = (length (getBookings st) + length (createdBy os))%nat.
Proof.
  split; [apply run_all_receipts|].
  rewrite <- (length_fmap receipt), run_all_receipts, length_fmap.
  apply length_app.
Qed.

Lemma run_status (o : Op) (st : Store) (i : nat) (b : Booking.t) :
  getBookings st !! i = Some b →
  ∃ b', getBookings (run o st) !! i = Some b' ∧ status_step b b'.
Proof.
  intros Hi. destruct o; simpl; try (exists b; split; [done|by left]).
  - exists b. split; [|by left].
    unfold getBookings. simpl. apply lookup_app_l_Some, Hi.
  - unfold cancelBooking.
    destruct (list_find _ _) as [[j c]|] eqn:Hfind;
      [|exists b; split; [done|by left]].
    apply list_find_Some in Hfind as (Hj & _ & _).
    unfold getBookings. simpl. destruct (decide (j = i)) as [->|Hne].
    + exists (Booking.set_status cancelled c). split; [|by right].
      apply list_lookup_insert_eq. by eapply lookup_lt_Some.
    + exists b. split; [|by left]. by rewrite list_lookup_insert_ne.
Qed.

(** X8.  A booking changes status in one direction only: after any
    sequence of operations it has the status it had or [cancelled], and a
    cancelled booking stays cancelled. *)
Theorem status_only_cancels (os : list Op) (st : Store) (i : nat)
    (b : Booking.t) :
  getBookings st !! i = Some b →
  ∃ b', getBookings (run_all os st) !! i = Some b'
        ∧ (Booking.status b' = Booking.status b
           ∨ Booking.status b' = cancelled)
        ∧ (Booking.status b = cancelled → Booking.status b' = cancelled).
Proof.
  revert st b. unfold run_all.
  induction os as [|o os IH]; intros st b Hi; simpl.
  - exists b. split_and!; [done|by left|done].
  - destruct (run_status o st i b Hi) as (b1 & Hi1 & Hstep1).
    destruct (IH _ _ Hi1) as (b' & Hi' & Hstep & Hterm).
    exists b'. unfold status_step in *. split_and!; [done| |];
      intuition congruence.
Qed.

Lemma status_only_cancels_witness :
  ∃ b', getBookings
          (run_all [CancelBooking "booking-1748786400000";
                    CreateBooking 7 "1970-01-01T00:00:00.007Z" ricksInput;
                    CancelBooking "booking-1748786400000"] store1)
          !! 0%nat = Some b'
        ∧ (Booking.status b' = confirmed ∨ Booking.status b' = cancelled)
        ∧ (confirmed = cancelled → Booking.status b' = cancelled).
Proof.
  apply (status_only_cancels _ store1 0
           (newBooking 1748786400000 "2025-06-01T14:00:00.000Z"
              jazzInput)).
  reflexivity.
Defined.

(** ** The catalog is read-only *)

Lemma run_catalog (o : Op) (st : Store) :
  api_op o = true → mockListings (run o st) = mockListings st.
Proof.
  destruct o; simpl; try done.
  unfold cancelBooking. by destruct (list_find _ _) as [[i b]|].
Qed.

Lemma run_all_catalog (os : list Op) (st : Store) :
  Forall (λ o, api_op o = true) os →
  mockListings (run_all os st) = mockListings st.
Proof.
  unfold run_all. intros Hos. revert st.
  induction Hos as [|o os Ho _ IH]; intros st; simpl; [done|].
  by rewrite IH, run_catalog.
Qed.

(** X9.  No operation of [api.ts] changes the catalog, so the answers of
    the three queries are the same before and after any sequence of
    them. *)
Theorem queries_stable
    (calculateDistance : number → number → number → number → option number)
    (toLowerCase : string → string) (os : list Op) (st : Store) :
  Forall (λ o, api_op o = true) os →
  mockListings (run_all os st) = mockListings st
  ∧ (∀ filters page limit,
       getListings calculateDistance filters page limit (run_all os st)
         = getListings calculateDistance filters page limit st)
  ∧ (∀ query, searchListings toLowerCase query (run_all os st)
              = searchListings toLowerCase query st)
  ∧ (∀ i, getListing i (run_all os st) = getListing i st).
Proof.
  intros Hos. pose proof (run_all_catalog os st Hos) as Hcat.
  split_and!; [done|..].
  - intros filters page limit.
    unfold getListings, filteredListings. by rewrite Hcat.
  - intros query. unfold searchListings. by rewrite Hcat.
  - intros i. unfold getListing. by rewrite Hcat.
Qed.

Lemma queries_stable_witness :
  searchListings ascii_toLowerCase "jazz"
    (run_all [AddToWishlist "listing-3";
              CreateBooking 7 "1970-01-01T00:00:00.007Z" jazzInput;
              CancelBooking "booking-7"] store0)
  = searchListings ascii_toLowerCase "jazz" store0.
Proof.
  refine (proj1 (proj2 (proj2 (queries_stable noDistance ascii_toLowerCase
                                 _ store0 _))) "jazz").
  repeat constructor.
Defined.

(** ** Cancelling what was just created *)

(** X10.  When no booking yet carries the id that [createBooking] is
    about to assign, cancelling by the returned id cancels the new booking
    and nothing else; when an earlier booking already carries that id,
    the new booking is left as it was created. *)
Theorem cancel_created (now : Z) (isoNow : string) (input : BookingInput.t)
    (st : Store) :
  let created := createBooking now isoNow input st in
  let after := cancelBooking (Booking.id (fst created)) (snd created) in
  ((∀ b, b ∈ getBookings st → Booking.id b ≠ Booking.id (fst created)) →
     getBookings after
       = getBookings st ++ [Booking.set_status cancelled (fst created)])
  ∧ ((∃ b, b ∈ getBookings st ∧ Booking.id b = Booking.id (fst created)) →
     last (getBookings after) = Some (fst created)).
Proof.
  simpl. split.
  - intros Hfresh.
    assert (Hnone : list_find (λ b, Booking.id b = bookingId now)
                      (getBookings st) = None).
    { apply list_find_None, Forall_forall. exact Hfresh. }
    unfold cancelBooking. simpl.
    rewrite (list_find_app_r _ _ _ Hnone). simpl.
    rewrite decide_True by done. simpl.
    unfold getBookings at 1. simpl.
    rewrite (insert_app_r_alt _ _ _ _ (Nat.le_refl _)).
    by rewrite Nat.sub_diag.
  - intros (b & Hb & Hid).
    destruct (list_find_elem_of (λ b, Booking.id b = bookingId now)
                (getBookings st) b Hb Hid) as [[i c] Hfind].
    unfold cancelBooking. simpl.
    rewrite (list_find_app_l _ _ _ _ _ Hfind).
    apply list_find_Some in Hfind as (Hi & _ & _).
    unfold getBookings at 1. simpl.
    rewrite insert_app_l by by eapply lookup_lt_Some.
    apply last_snoc.
Qed.

Lemma cancel_created_witness :
  getBookings
    (cancelBooking "booking-7"
       (snd (createBooking 7 "1970-01-01T00:00:00.007Z" ricksInput store1)))
  = getBookings store1
    ++ [Booking.set_status cancelled
          (newBooking 7 "1970-01-01T00:00:00.007Z" ricksInput)]
  ∧ last (getBookings
            (cancelBooking "booking-1748786400000"
               (snd (createBooking 1748786400000 "2025-06-01T14:00:00.000Z"
                       ricksInput store1))))
    = Some (newBooking 1748786400000 "2025-06-01T14:00:00.000Z" ricksInput).
Proof.
  split.
  - apply (proj1 (cancel_created 7 "1970-01-01T00:00:00.007Z" ricksInput
                    store1)).
    intros b Hb. apply list_elem_of_singleton in Hb as ->. by vm_compute.
  - apply (proj2 (cancel_created 1748786400000 "2025-06-01T14:00:00.000Z"
                    ricksInput store1)).
    eexists. split; [apply list_elem_of_here|reflexivity].
Defined.

(** ** The figures of the profile page *)

Lemma totalSpent_prices (bs : list Booking.t) (acc : option number) :
  foldl (λ sum booking, sum ≫= λ s, plus s (Booking.totalPrice booking))
        acc bs
    = foldl (λ sum price, sum ≫= λ s, plus s price) acc
            (Booking.totalPrice <$> bs).
Proof. revert acc. induction bs as [|b bs IH]; intros acc; simpl; auto. Qed.

Lemma cancelBooking_totalPrices (i : string) (st : Store) :
  Booking.totalPrice <$> getBookings (cancelBooking i st)
    = Booking.totalPrice <$> getBookings st.
Proof.
  unfold cancelBooking.
  destruct (list_find _ _) as [[j b]|] eqn:Hfind; [|done].
  apply list_find_Some in Hfind as (Hj & _ & _).
  unfold getBookings at 1. simpl. by apply totalPrices_insert_status.
Qed.

(** X11.  The total spent of the profile page adds up the total prices
    of all bookings, the cancelled ones included, from the first to the
    last and in binary64: [cancelBooking] leaves it as it is, and
    [createBooking] adds the new booking's total price to it with one
    more rounded addition.  A total that is no longer a finite number
    stays so. *)
Theorem totalSpent_spec (st : Store) :
  (∀ i, totalSpent (getBookings (cancelBooking i st))
        = totalSpent (getBookings st))
  ∧ (∀ now isoNow input,
       totalSpent (getBookings (snd (createBooking now isoNow input st)))
       = match totalSpent (getBookings st) with
         | Some spent =>
             Binary64.to_number
               (Binary64.add (Binary64.of_number spent)
                  (Binary64.of_number (BookingInput.totalPrice input)))
         | None => None
         end)
  ∧ totalSpent [] = Some 0%Q.
Proof.
  split_and!.
  - intros i. unfold totalSpent.
    by rewrite !totalSpent_prices, cancelBooking_totalPrices.
  - intros now isoNow input. unfold totalSpent, getBookings. simpl.
    rewrite foldl_snoc. by destruct (foldl _ _ _).
  - reflexivity.
Qed.

Lemma size_list_to_set_le (l : list string) :
  (size (list_to_set l : gset string) ≤ length l)%nat.
Proof.
  unfold size, set_size. simpl.
  apply submseteq_length, NoDup_submseteq; [apply NoDup_elements|].
  intros x. by rewrite elem_of_elements, elem_of_list_to_set.
Qed.

Lemma confirmed_insert_cancelled (bs : list Booking.t) (i : nat)
    (b : Booking.t) :
  bs !! i = Some b →
  length (confirmedBookings bs)
    = (length (confirmedBookings
                 (<[i := Booking.set_status cancelled b]> bs))
       + (if decide (Booking.status b = confirmed) then 1 else 0))%nat.
Proof.
  intros Hi. pose proof (lookup_lt_Some _ _ _ Hi) as Hlt.
  rewrite insert_take_drop by done.
  rewrite <- (take_drop_middle bs i b Hi) at 1.
  unfold confirmedBookings.
  rewrite !filter_app, !filter_cons, !length_app. simpl.
  destruct (decide (Booking.status b = confirmed)); simpl; lia.
Qed.

(** X12.  On the profile page the places visited are at most the
    confirmed bookings, which are at most the bookings; and one
    [cancelBooking] lowers the number of confirmed bookings by one when
    it reaches a confirmed booking and leaves it as it is otherwise. *)
Theorem profile_counts (st : Store) :
  (placesVisited (getBookings st)
     ≤ length (confirmedBookings (getBookings st)))%nat
  ∧ (length (confirmedBookings (getBookings st))
       ≤ length (getBookings st))%nat
  ∧ (∀ i,
       let n := length (confirmedBookings (getBookings st)) in
       let n' :=
         length (confirmedBookings (getBookings (cancelBooking i st))) in
       match list_find (λ b, Booking.id b = i) (getBookings st) with
       | Some (_, b) =>
           if decide (Booking.status b = confirmed)
           then n = S n' else n' = n
       | None => n' = n
       end).
Proof.
  split_and!.
  - unfold placesVisited.
    etrans; [apply size_list_to_set_le|]. by rewrite length_fmap.
  - apply length_filter.
  - intros i. simpl. unfold cancelBooking. fold (getBookings st).
    destruct (list_find _ _) as [[j b]|] eqn:Hfind; [|done].
    apply list_find_Some in Hfind as (Hj & _ & _).
    unfold getBookings at 2 4. simpl.
    rewrite (confirmed_insert_cancelled _ _ _ Hj).
    destruct (decide (Booking.status b = confirmed)); lia.
Qed.

(** X13.  The recent activity card shows the first three bookings of the
    collection, which are the three oldest: once three bookings exist, no
    sequence of operations changes which bookings it shows; only their
    status can differ. *)
Theorem recentActivity_oldest (os : list Op) (st : Store) :
  (3 ≤ length (getBookings st))%nat →
  recentActivity (getBookings st) = take 3 (getBookings st)
  ∧ receipt <$> recentActivity (getBookings (run_all os st))
    = receipt <$> recentActivity (getBookings st).
Proof.
  intros Hlen. unfold recentActivity.
  rewrite !(slice_window _ 0 3) by lia.
  change (Z.to_nat 3) with 3%nat. change (Z.to_nat 0) with 0%nat.
  rewrite !drop_0. split; [done|].
  rewrite !fmap_take, run_all_receipts, fmap_app.
  apply take_app_le. by rewrite length_fmap.
Qed.

Lemma recentActivity_oldest_witness :
  let three :=
    run_all [CreateBooking 1 "1970-01-01T00:00:00.001Z" ricksInput;
             CreateBooking 2 "1970-01-01T00:00:00.002Z" mosqueInput;
             CreateBooking 3 "1970-01-01T00:00:00.003Z" jazzInput] store0 in
  receipt <$> recentActivity (getBookings
    (run_all [CreateBooking 4 "1970-01-01T00:00:00.004Z" jazzInput;
              CancelBooking "booking-2"] three))
  = receipt <$> recentActivity (getBookings three).
Proof.
  intros three.
  apply (proj2 (recentActivity_oldest _ three ltac:(vm_compute; lia))).
Defined.

(** ** The filtered list, exactly *)

Lemma by_category_complete (f : ListingFilters) (ls : list Listing.t)
    (l : Listing.t) :
  l ∈ ls → (∀ c, f_category f = Some c → Listing.category l = c) →
  l ∈ by_category f ls.
Proof.
  unfold by_category. intros Hl Hc. destruct (f_category f) as [c|]; [|done].
  apply list_elem_of_filter. split; [by apply Hc|done].
Qed.

Lemma by_minPrice_complete (f : ListingFilters) (ls : list Listing.t)
    (l : Listing.t) :
  l ∈ ls →
  (∀ m, f_minPrice f = Some m → truthy m = true → (m <= Listing.price l)%Q) →
  l ∈ by_minPrice f ls.
Proof.
  unfold by_minPrice. intros Hl Hc. destruct (f_minPrice f) as [m|]; [|done].
  destruct (truthy m) eqn:Ht; [|done].
  apply list_elem_of_filter. split; [|done].
  apply Is_true_true, Qle_bool_iff. by apply Hc.
Qed.

Lemma by_maxPrice_complete (f : ListingFilters) (ls : list Listing.t)
    (l : Listing.t) :
  l ∈ ls →
  (∀ m, f_maxPrice f = Some m → truthy m = true → (Listing.price l <= m)%Q) →
  l ∈ by_maxPrice f ls.
Proof.
  unfold by_maxPrice. intros Hl Hc. destruct (f_maxPrice f) as [m|]; [|done].
  destruct (truthy m) eqn:Ht; [|done].
  apply list_elem_of_filter. split; [|done].
  apply Is_true_true, Qle_bool_iff. by apply Hc.
Qed.

Lemma by_minRating_complete (f : ListingFilters) (ls : list Listing.t)
    (l : Listing.t) :
  l ∈ ls →
  (∀ m, f_minRating f = Some m → truthy m = true →
        (m <= Listing.rating l)%Q) →
  l ∈ by_minRating f ls.
Proof.
  unfold by_minRating. intros Hl Hc.
  destruct (f_minRating f) as [m|]; [|done].
  destruct (truthy m) eqn:Ht; [|done].
  apply list_elem_of_filter. split; [|done].
  apply Is_true_true, Qle_bool_iff. by apply Hc.
Qed.

Lemma slice_page_zero {A} (l : list A) (limit : Z) :
  0 ≤ limit → slice l (- limit) (- limit + limit) = [].
Proof.
  intros Hl. unfold slice, relative_index.
  replace (- limit + limit) with 0 by lia. change (0 <? 0) with false.
  destruct (Z.ltb_spec (- limit) 0);
    match goal with
    | |- take ?n _ = [] => assert (n = 0%nat) as -> by lia
    end; apply take_0.
Qed.

Section FilteredExactly.

Variable calculateDistance :
  number → number → number → number → option number.

Lemma by_location_complete (f : ListingFilters) (ls : list Listing.t)
    (l : Listing.t) :
  l ∈ ls →
  (∀ g, f_location f = Some g →
     ∃ d, calculateDistance (GeoFilter.lat g) (GeoFilter.lng g)
            (Location.lat (Listing.location l))
            (Location.lng (Listing.location l)) = Some d
          ∧ (d <= GeoFilter.radius g)%Q) →
  l ∈ by_location calculateDistance f ls.
Proof.
  unfold by_location. intros Hl Hc. destruct (f_location f) as [g|]; [|done].
  apply list_elem_of_filter. split; [|done].
  destruct (Hc g eq_refl) as (d & Hd & Hle).
  unfold near, within. rewrite Hd. by apply Is_true_true, Qle_bool_iff.
Qed.

(** X14.  The filtered list of [getListings] is, in catalog order,
    exactly the listings of the catalog that pass the test of every
    truthy filter field: none that passes is left out, none that fails is
    kept. *)
Theorem filteredListings_exact (f : ListingFilters) (st : Store)
    (l : Listing.t) :
  (l ∈ filteredListings calculateDistance (Some f) st ↔
   l ∈ mockListings st ∧ passes calculateDistance f l)
  ∧ filteredListings calculateDistance (Some f) st
      `sublist_of` mockListings st.
Proof.
  split; [|apply filteredListings_sublist].
  unfold passes. simpl. split.
  - intros Hl.
    apply by_location_sound in Hl as [Hl H5].
    apply (by_minRating_sound calculateDistance) in Hl as [Hl H4].
    apply (by_maxPrice_sound calculateDistance) in Hl as [Hl H3].
    apply (by_minPrice_sound calculateDistance) in Hl as [Hl H2].
    apply by_category_sound in Hl as [Hl H1].
    done.
  - intros (Hl & H1 & H2 & H3 & H4 & H5).
    apply by_location_complete; [|done].
    apply by_minRating_complete; [|done].
    apply by_maxPrice_complete; [|done].
    apply by_minPrice_complete; [|done].
    by apply by_category_complete.
Qed.

(** X15.  A page never holds more than [limit] listings, and a page that
    reports [hasMore] is full; page [0] is empty, and reports [hasMore]
    whenever the filtered list is not empty. *)
Theorem getListings_bounds (filters : option ListingFilters) (page limit : Z)
    (st : Store) :
  0 ≤ limit →
  (1 ≤ page →
   Z.of_nat (length (data (getListings calculateDistance filters page limit
                             st))) ≤ limit
   ∧ (hasMore (getListings calculateDistance filters page limit st) = true →
      Z.of_nat (length (data (getListings calculateDistance filters page
                                limit st))) = limit))
  ∧ data (getListings calculateDistance filters 0 limit st) = []
  ∧ (hasMore (getListings calculateDistance filters 0 limit st) = true ↔
     filteredListings calculateDistance filters st ≠ []).
Proof.
  intros Hl. unfold getListings. simpl.
  set (fl := filteredListings calculateDistance filters st).
  split_and!.
  - intros Hp. assert (Hs : 0 ≤ (page - 1) * limit) by nia.
    revert Hs. generalize ((page - 1) * limit). intros s Hs.
    rewrite slice_window by done.
    rewrite length_take, length_drop. split; [lia|].
    rewrite Z.ltb_lt. lia.
  - replace ((0 - 1) * limit) with (- limit) by lia. by apply slice_page_zero.
  - rewrite Z.ltb_lt. replace ((0 - 1) * limit + limit) with 0 by lia.
    destruct fl; simpl; split; intros; done || lia.
Qed.

(** X16.  The featured listings of the home page are the first six
    listings of the filtered list, in catalog order. *)
Theorem featuredListings_first_six (f : ListingFilters) (st : Store) :
  featuredListings calculateDistance f st
    = take 6 (filteredListings calculateDistance (Some f) st).
Proof.
  unfold featuredListings, getListings. cbn [data].
  rewrite (slice_window _ 0 50), (slice_window _ 0 6) by lia.
  change (Z.to_nat 0) with 0%nat. rewrite !drop_0.
  by rewrite take_take.
Qed.

End FilteredExactly.

Lemma getListings_bounds_witness :
  Z.of_nat (length (data (getListings noDistance None 1 2 store0))) = 2
  ∧ data (getListings noDistance None 0 2 store0) = [].
Proof.
  pose proof (getListings_bounds noDistance None 1 2 store0 ltac:(lia))
    as [Hfull _].
  pose proof (getListings_bounds noDistance None 0 2 store0 ltac:(lia))
    as (_ & Hzero & _).
  split; [|exact Hzero].
  apply Hfull; [lia|reflexivity].
Defined.

(** ** The explore page *)

Section Explore.

Variable calculateDistance :
  number → number → number → number → option number.
Variable toLowerCase : string → string.
Variable trim : string → string.
Variable filters : ListingFilters.
Variable searchQuery : string.
Variable st : Store.

(** A load of the first page overwrites what the page shows. *)
Lemma loadListings_first (f : ListingFilters) (q : string) (reset : bool)
    (ex : Explore) :
  loadListings calculateDistance toLowerCase trim f q 1 reset st ex
  = mkExplore
      (data (loadResponse calculateDistance toLowerCase trim f q 1 st))
      (hasMore (loadResponse calculateDistance toLowerCase trim f q 1 st))
      1.
Proof using Type.
  unfold loadListings. change (1 =? 1) with true. by rewrite orb_true_r.
Qed.

(** The response that arrives last decides what the page shows, when it
    is a response to a load of the first page. *)
Lemma settle_last (loads : list Load) (l : Load) (ex : Explore) :
  last (arrivals trim loads) = Some l → load_page l = 1 →
  settle calculateDistance toLowerCase trim loads st ex
  = mkExplore
      (data (loadResponse calculateDistance toLowerCase trim
               (load_filters l) (load_query l) 1 st))
      (hasMore (loadResponse calculateDistance toLowerCase trim
                  (load_filters l) (load_query l) 1 st))
      1.
Proof using Type.
  intros Hlast Hpage. apply last_Some in Hlast as [earlier Hlast].
  unfold settle. rewrite Hlast, foldl_snoc, Hpage.
  apply loadListings_first.
Qed.

Lemma first_page_browsing (loads : list Load) (l : Load) :
  last (arrivals trim loads) = Some l → load_page l = 1 →
  load_filters l = filters → nonempty (trim (load_query l)) = false →
  browsing (filteredListings calculateDistance (Some filters) st) 0
    (settle calculateDistance toLowerCase trim loads st initialExplore).
Proof using Type.
  intros Hlast Hpage Hf Hq. rewrite (settle_last _ _ _ Hlast Hpage).
  unfold browsing, loadResponse. rewrite Hq, Hf.
  cbn [ex_page ex_listings ex_hasMore data hasMore getListings].
  set (fl := filteredListings calculateDistance (Some filters) st).
  split_and!; [lia|lia| |done|by left|by left].
  change ((1 - 1) * 12) with 0.
  by rewrite (slice_window fl 0 12), drop_0 by lia.
Qed.

Lemma load_more_browsing (n : nat) (ex : Explore) :
  nonempty (trim searchQuery) = false →
  browsing (filteredListings calculateDistance (Some filters) st) n ex →
  browsing (filteredListings calculateDistance (Some filters) st) (S n)
    (handleLoadMore calculateDistance toLowerCase trim filters searchQuery
       st ex).
Proof using Type.
  intros Hq (Hpage & Hls & Hmore & Hend & Hbegin).
  unfold handleLoadMore. destruct (ex_hasMore ex) eqn:Hhas.
  - destruct Hend as [Hend|?]; [|done].
    symmetry in Hmore. apply Z.ltb_lt in Hmore.
    unfold browsing, loadListings, loadResponse. rewrite Hq.
    cbn [ex_page ex_listings ex_hasMore data hasMore getListings orb].
    set (fl := filteredListings calculateDistance (Some filters) st) in *.
    destruct (Z.eqb_spec (ex_page ex + 1) 1) as [?|_]; [lia|].
    split_and!; [lia|lia| |f_equal; lia|left; lia|right; lia].
    rewrite Hls, slice_window by lia.
    replace (Z.to_nat ((ex_page ex + 1 - 1) * 12))
      with (Z.to_nat (12 * ex_page ex)) by lia.
    rewrite take_take_drop. f_equal. lia.
  - unfold browsing. rewrite Hhas.
    split_and!; [lia|lia|done|done|by right|done].
Qed.

Lemma loadedAfter_browsing (loads : list Load) (l : Load) (n : nat) :
  last (arrivals trim loads) = Some l → load_page l = 1 →
  load_filters l = filters → nonempty (trim (load_query l)) = false →
  nonempty (trim searchQuery) = false →
  browsing (filteredListings calculateDistance (Some filters) st) n
    (loadedAfter calculateDistance toLowerCase trim loads filters
       searchQuery st n).
Proof using Type.
  intros Hlast Hpage Hf Hl Hq. unfold loadedAfter. induction n as [|n IH].
  - by apply (first_page_browsing loads l).
  - rewrite Nat.iter_succ. by apply load_more_browsing.
Qed.

(** X17.  While browsing (no search text), once the responses of the
    loads under way have arrived, the last of them a first page for the
    current filters, and after [n] uses of the load-more button, the
    explore page is on page [n + 1], or on the last page if there are
    fewer; it shows the first [12 * page] listings of the filtered list,
    each once and in catalog order, and its [hasMore] flag tells whether
    the filtered list goes on after them. *)
Theorem explore_accumulates (loads : list Load) (l : Load) (n : nat) :
  last (arrivals trim loads) = Some l → load_page l = 1 →
  load_filters l = filters → nonempty (trim (load_query l)) = false →
  nonempty (trim searchQuery) = false →
  let ex :=
    loadedAfter calculateDistance toLowerCase trim loads filters searchQuery
      st n in
  let fl := filteredListings calculateDistance (Some filters) st in
  ex_page ex
    = Z.min (Z.of_nat n + 1) (Z.max 1 (pageCount (Z.of_nat (length fl)) 12))
  ∧ ex_listings ex = take (Z.to_nat (12 * ex_page ex)) fl
  ∧ (ex_hasMore ex = true ↔ 12 * ex_page ex < Z.of_nat (length fl))
  ∧ (NoDup (mockListings st) → NoDup (ex_listings ex))
  ∧ ex_listings ex `sublist_of` mockListings st.
Proof using Type.
  intros Hlast Hpage Hf Hl Hq ex fl.
  destruct (loadedAfter_browsing loads l n Hlast Hpage Hf Hl Hq)
    as (Hp & Hls & Hmore & Hend & Hbegin).
  fold ex fl in Hp, Hls, Hmore, Hend, Hbegin.
  assert (Hsub : ex_listings ex `sublist_of` mockListings st).
  { rewrite Hls. etrans; [apply sublist_take|].
    apply filteredListings_sublist. }
  clearbody ex fl. split_and!; [|done| | |done].
  - unfold pageCount. clear Hls Hsub.
    assert (Hlen : 0 ≤ Z.of_nat (length fl)) by lia.
    set (len := Z.of_nat (length fl)) in *. clearbody len.
    pose proof (Z.div_mod (len + 12 - 1) 12 ltac:(lia)) as Hdm.
    pose proof (Z.mod_pos_bound (len + 12 - 1) 12 ltac:(lia)) as Hb.
    destruct Hend as [Hend|Hoff].
    + clear Hmore. destruct Hbegin as [Hone|Hprev]; lia.
    + rewrite Hmore in Hoff. apply Z.ltb_ge in Hoff. clear Hmore.
      destruct Hbegin as [Hone|Hprev]; lia.
  - rewrite Hmore. apply Z.ltb_lt.
  - intros Hnd. by apply (sublist_NoDup _ (mockListings st)).
Qed.

(** X18.  While browsing, once the load-more button has been used as
    often as there are further pages, the explore page shows the whole
    filtered list and [hasMore] is off; a further use of the button
    changes nothing. *)
Theorem explore_reaches_end (loads : list Load) (l : Load) (n : nat) :
  last (arrivals trim loads) = Some l → load_page l = 1 →
  load_filters l = filters → nonempty (trim (load_query l)) = false →
  nonempty (trim searchQuery) = false →
  let ex :=
    loadedAfter calculateDistance toLowerCase trim loads filters searchQuery
      st n in
  let fl := filteredListings calculateDistance (Some filters) st in
  pageCount (Z.of_nat (length fl)) 12 ≤ Z.of_nat n + 1 →
  ex_listings ex = fl
  ∧ ex_hasMore ex = false
  ∧ handleLoadMore calculateDistance toLowerCase trim filters searchQuery
      st ex = ex.
Proof using Type.
  intros Hlast Hpage Hf Hl Hq ex fl Hn.
  destruct (loadedAfter_browsing loads l n Hlast Hpage Hf Hl Hq)
    as (Hp & Hls & Hmore & Hend & _).
  fold ex fl in Hp, Hls, Hmore, Hend.
  destruct (pageCount_covers (Z.of_nat (length fl)) 12) as (_ & Hcov & _);
    [lia..|].
  assert (Hoff : ex_hasMore ex = false).
  { destruct Hend as [Hend|?]; [|done]. rewrite Hmore. apply Z.ltb_ge. nia. }
  split_and!.
  - rewrite Hls. apply take_ge. rewrite Hmore in Hoff.
    apply Z.ltb_ge in Hoff. lia.
  - done.
  - unfold handleLoadMore. by rewrite Hoff.
Qed.




(** The two loads of a mounting page whose URL carries a search text
    arrive in the order of their calls only if the second call is at
    least 200 ms after the first. *)
Lemma mount_arrivals (t0 t1 : Z) (category : option Category) :
  nonempty (trim "") = false → nonempty (trim searchQuery) = true →
  arrivals trim (mountLoads t0 t1 category searchQuery)
  = if t0 + 200 <=? t1
    then [mkLoad t0 noFilters "" 1 true;
          mkLoad t1 (urlFilters category) searchQuery 1 true]
    else [mkLoad t1 (urlFilters category) searchQuery 1 true;
          mkLoad t0 noFilters "" 1 true].
Proof using Type.
  intros Hblank Hq. unfold arrivals, mountLoads. simpl.
  unfold load_end. simpl. rewrite Hblank, Hq.
  destruct (Z.leb_spec (t0 + 800) (t1 + 600));
    destruct (Z.leb_spec (t0 + 200) t1); done || lia.
Qed.

(** X19.  A load with a search text shows all the search results at
    once, searched as typed and not trimmed, with [hasMore] off and on
    page 1, and the load-more button then does nothing.  But a page that
    mounts with a search text in its URL has two loads under way and
    cancels neither: the browse load of the first render (no filter, no
    text, answered after 800 ms) and the search load of the second
    render (answered after 600 ms).  Unless the second starts at least
    200 ms after the first, the browse response arrives last and the
    page shows the first twelve listings of the whole catalog instead of
    the search results; the load-more button then appends the search
    results to them. *)
Theorem explore_search (t0 t1 : Z) (category : option Category) :
  nonempty (trim "") = false → nonempty (trim searchQuery) = true →
  let found := mkExplore (searchListings toLowerCase searchQuery st) false 1 in
  let mounted :=
    settle calculateDistance toLowerCase trim
      (mountLoads t0 t1 category searchQuery) st initialExplore in
  let more :=
    handleLoadMore calculateDistance toLowerCase trim (urlFilters category)
      searchQuery st in
  settle calculateDistance toLowerCase trim
    [mkLoad t1 (urlFilters category) searchQuery 1 true] st initialExplore
  = found
  ∧ (∀ n, Nat.iter n more found = found)
  ∧ (t0 + 200 ≤ t1 → mounted = found)
  ∧ (t1 < t0 + 200 →
     mounted
     = mkExplore (take 12 (mockListings st))
         (12 <? Z.of_nat (length (mockListings st))) 1
     ∧ (12 < Z.of_nat (length (mockListings st)) →
        more mounted
        = mkExplore
            (take 12 (mockListings st)
               ++ searchListings toLowerCase searchQuery st)
            false 2)).
Proof using Type.
  intros Hblank Hq found mounted more.
  assert (Hsearch : ∀ reset ex,
            loadListings calculateDistance toLowerCase trim
              (urlFilters category) searchQuery 1 reset st ex = found).
  { intros reset ex. rewrite loadListings_first.
    unfold loadResponse. by rewrite Hq. }
  assert (Hbrowse : ∀ reset ex,
            loadListings calculateDistance toLowerCase trim noFilters ""
              1 reset st ex
            = mkExplore (take 12 (mockListings st))
                (12 <? Z.of_nat (length (mockListings st))) 1).
  { intros reset ex. rewrite loadListings_first.
    unfold loadResponse. rewrite Hblank.
    cbn [data hasMore getListings]. change ((1 - 1) * 12) with 0.
    rewrite (slice_window _ 0 12) by lia. by rewrite drop_0. }
  split_and!.
  - unfold settle. simpl. apply Hsearch.
  - induction n as [|n IH]; [done|].
    rewrite Nat.iter_succ, IH. done.
  - intros Hlate. unfold mounted, settle.
    rewrite (mount_arrivals _ _ _ Hblank Hq).
    destruct (Z.leb_spec (t0 + 200) t1); [|lia].
    simpl. apply Hsearch.
  - intros Hsoon.
    assert (Hm : mounted
                 = mkExplore (take 12 (mockListings st))
                     (12 <? Z.of_nat (length (mockListings st))) 1).
    { unfold mounted, settle. rewrite (mount_arrivals _ _ _ Hblank Hq).
      destruct (Z.leb_spec (t0 + 200) t1); [lia|].
      simpl. apply Hbrowse. }
    split; [done|]. intros Hlong. rewrite Hm. unfold more, handleLoadMore.
    cbn [ex_hasMore ex_page ex_listings].
    apply Z.ltb_lt in Hlong. rewrite Hlong.
    unfold loadListings, loadResponse. rewrite Hq. done.
Qed.

End Explore.

Lemma explore_accumulates_witness :
  let ex :=
    loadedAfter noDistance ascii_toLowerCase ascii_trim
      (mountLoads 0 4 None "") noFilters "" store30 1 in
  ex_page ex = 2
  ∧ ex_listings ex = venue <$> seqZ 1 24
  ∧ (ex_hasMore ex = true ↔ 12 * 2 < 30).
Proof.
  pose proof (explore_accumulates noDistance ascii_toLowerCase ascii_trim
                noFilters "" store30 (mountLoads 0 4 None "")
                (mkLoad 4 noFilters "" 1 true) 1
                eq_refl eq_refl eq_refl eq_refl eq_refl)
    as (Hpage & Hls & Hmore & _).
  split_and!.
  - exact Hpage.
  - rewrite Hls. reflexivity.
  - exact Hmore.
Defined.

Lemma explore_reaches_end_witness :
  let ex :=
    loadedAfter noDistance ascii_toLowerCase ascii_trim
      (mountLoads 0 4 None "") noFilters "" store30 2 in
  ex_listings ex = venue <$> seqZ 1 30 ∧ ex_hasMore ex = false.
Proof.
  pose proof (explore_reaches_end noDistance ascii_toLowerCase ascii_trim
                noFilters "" store30 (mountLoads 0 4 None "")
                (mkLoad 4 noFilters "" 1 true) 2
                eq_refl eq_refl eq_refl eq_refl eq_refl)
    as Hend.
  destruct Hend as (Hls & Hoff & _).
  - vm_compute. discriminate.
  - split; [exact Hls|exact Hoff].
Defined.


Lemma explore_search_witness :
  let mounted :=
    settle noDistance ascii_toLowerCase ascii_trim
      (mountLoads 0 5 None " Jazz ") store30 initialExplore in
  mounted = mkExplore (venue <$> seqZ 1 12) true 1
  ∧ handleLoadMore noDistance ascii_toLowerCase ascii_trim
      (urlFilters None) " Jazz " store30 mounted
    = mkExplore ((venue <$> seqZ 1 12) ++ [venue 10; venue 20; venue 30])
        false 2
  ∧ settle noDistance ascii_toLowerCase ascii_trim
      (mountLoads 0 200 None " Jazz ") store30 initialExplore
    = mkExplore [venue 10; venue 20; venue 30] false 1.
Proof.
  destruct (explore_search noDistance ascii_toLowerCase ascii_trim " Jazz "
              store30 0 5 None eq_refl eq_refl)
    as (_ & _ & _ & Hsoon).
  destruct (explore_search noDistance ascii_toLowerCase ascii_trim " Jazz "
              store30 0 200 None eq_refl eq_refl)
    as (_ & _ & Hlate & _).
  destruct (Hsoon ltac:(lia)) as [Hm Hmore].
  split_and!; [exact Hm| |].
  - apply Hmore. vm_compute. reflexivity.
  - apply Hlate. lia.
Defined.

(** ** The badge and the drawer of the filters *)

(** X20.  The badge of active filters shows a number from 0 to 5; when
    it shows 0, [getListings] filters nothing.  Choosing a date in the
    drawer raises the badge by one and never changes the filtered list,
    since [getListings] does not read the date. *)
Theorem activeFilters_badge
    (calculateDistance : number → number → number → number → option number)
    (f : ListingFilters) (st : Store) :
  0 ≤ getActiveFiltersCount f ≤ 5
  ∧ (getActiveFiltersCount f = 0 →
     filteredListings calculateDistance (Some f) st = mockListings st)
  ∧ (∀ d, filteredListings calculateDistance (Some (handleDateChange d f)) st
          = filteredListings calculateDistance (Some f) st)
  ∧ (∀ d, nonempty d = true → f_date f = None →
          getActiveFiltersCount (handleDateChange d f)
            = getActiveFiltersCount f + 1).
Proof.
  destruct f as [c lo hi r d g].
  unfold getActiveFiltersCount, filteredListings, by_location, by_minRating,
    by_maxPrice, by_minPrice, by_category, handleDateChange. simpl.
  split_and!.
  - destruct c, lo, hi, r as [r|], d as [d|], g;
      try destruct (truthy r); try destruct (nonempty d); simpl; lia.
  - destruct c, lo, hi, r as [r|], d as [d|], g;
      try destruct (truthy r); try destruct (nonempty d); simpl; lia.
  - destruct c, lo, hi, r as [r|], d as [d|], g;
      try destruct (truthy r); try destruct (nonempty d); simpl;
      intros ?; try done; lia.
  - intros ?. reflexivity.
  - intros d' Hd ->. rewrite Hd. simpl. rewrite Hd.
    destruct c, lo, hi, r as [r|], g; try destruct (truthy r); simpl; lia.
Qed.

Lemma activeFilters_badge_witness :
  filteredListings noDistance
    (Some (mkFilters None None None (Some 0%Q) (Some "") None)) store0
  = mockListings store0
  ∧ getActiveFiltersCount (handleDateChange "2025-06-01" noFilters) = 1.
Proof.
  split.
  - apply (proj1 (proj2 (activeFilters_badge noDistance _ store0))).
    reflexivity.
  - apply (proj2 (proj2 (proj2 (activeFilters_badge noDistance noFilters
                                  store0))) "2025-06-01"); reflexivity.
Defined.

Lemma drawer_keeps_price (g : DrawerGesture) (f : ListingFilters) :
  is_clear g = false → defined (f_minPrice f) = true →
  defined (f_minPrice (drawer g f)) = true.
Proof. by destruct g. Qed.

(** X21.  A price range, once chosen in the filter drawer, cannot be
    unselected by any handler but [handleClear]: after every sequence of
    the other handlers a lower price bound is still set and the badge
    shows at least 1. *)
Theorem price_range_sticky (gs : list DrawerGesture) (f : ListingFilters) :
  Forall (λ g, is_clear g = false) gs →
  defined (f_minPrice f) = true →
  defined (f_minPrice (foldl (λ f g, drawer g f) f gs)) = true
  ∧ 1 ≤ getActiveFiltersCount (foldl (λ f g, drawer g f) f gs).
Proof.
  intros Hgs Hset.
  assert (Hkept : defined (f_minPrice (foldl (λ f g, drawer g f) f gs))
                  = true).
  { revert f Hset. induction Hgs as [|g gs Hg _ IH]; intros f Hset; [done|].
    simpl. by apply IH, drawer_keeps_price. }
  split; [done|]. revert Hkept.
  generalize (foldl (λ f g, drawer g f) f gs). intros [c lo hi r d g].
  unfold getActiveFiltersCount. simpl. intros ->. simpl.
  destruct c, r as [r|], d as [d|], g;
    try destruct (truthy r); try destruct (nonempty d); simpl; lia.
Qed.

Lemma price_range_sticky_witness :
  1 ≤ getActiveFiltersCount
        (foldl (λ f g, drawer g f)
           (handlePriceRangeChange 0%Q (Some 100%Q) noFilters)
           [PickCategory restaurant; PickCategory restaurant;
            PickRating 4%Q; PickRating 4%Q; PickDate ""]).
Proof.
  apply price_range_sticky; [repeat constructor|reflexivity].
Defined.

(** ** The picture carousel of the listing page *)

(** X22.  With at least one picture and an index in range, [nextImage]
    and [prevImage] stay in range, wrap around at the ends and undo each
    other. *)
Theorem image_carousel (images i : Z) :
  0 ≤ i < images →
  nextImage images i = Some (if decide (i + 1 = images) then 0 else i + 1)
  ∧ prevImage images i = Some (if decide (i = 0) then images - 1 else i - 1)
  ∧ (nextImage images i ≫= prevImage images) = Some i
  ∧ (prevImage images i ≫= nextImage images) = Some i.
Proof.
  intros Hi. unfold nextImage, prevImage, js_rem.
  destruct (Z.eqb_spec images 0) as [?|_]; [lia|].
  assert (Hnext : Z.rem (i + 1) images
                  = if decide (i + 1 = images) then 0 else i + 1).
  { rewrite Z.rem_mod_nonneg by lia.
    destruct (decide (i + 1 = images)) as [Hc|Hc].
    - rewrite Hc. apply Z_mod_same_full.
    - apply Z.mod_small. lia. }
  assert (Hprev : Z.rem (i - 1 + images) images
                  = if decide (i = 0) then images - 1 else i - 1).
  { rewrite Z.rem_mod_nonneg by lia.
    destruct (decide (i = 0)) as [Hc|Hc].
    - rewrite Hc. replace (0 - 1 + images) with (images - 1) by lia.
      apply Z.mod_small. lia.
    - replace (i - 1 + images) with (i - 1 + 1 * images) by lia.
      rewrite Z_mod_plus_full. apply Z.mod_small. lia. }
  rewrite Hnext, Hprev. split_and!; [done|done|..]; simpl;
    destruct (Z.eqb_spec images 0) as [?|_]; try lia; f_equal;
    rewrite Z.rem_mod_nonneg by (repeat case_decide; lia).
  - destruct (decide (i + 1 = images)) as [Hc|Hc].
    + replace (0 - 1 + images) with i by lia. apply Z.mod_small. lia.
    + replace (i + 1 - 1 + images) with (i + 1 * images) by lia.
      rewrite Z_mod_plus_full. apply Z.mod_small. lia.
  - destruct (decide (i = 0)) as [Hc|Hc].
    + replace (images - 1 + 1) with images by lia.
      rewrite Z_mod_same_full. lia.
    + replace (i - 1 + 1) with i by lia. apply Z.mod_small. lia.
Qed.

Lemma image_carousel_witness :
  nextImage 3 2 = Some 0 ∧ prevImage 3 0 = Some 2.
Proof.
  split.
  - apply (proj1 (image_carousel 3 2 ltac:(lia))).
  - apply (proj1 (proj2 (image_carousel 3 0 ltac:(lia)))).
Defined.

(** ** The booking wizard *)

Lemma max1_whole (x : number) (z : Z) :
  1 ≤ z → (x == inject_Z z - 1)%Q →
  ∃ z', 1 ≤ z' ∧ (max1 x == inject_Z z')%Q.
Proof.
  intros Hz Hx. unfold max1. destruct (Qle_bool 1 x) eqn:E.
  - apply Qle_bool_iff in E. exists (z - 1). split.
    + assert (Hq : (inject_Z 2 <= inject_Z z)%Q).
      { change (inject_Z 2) with 2%Q. lra. }
      rewrite <- Zle_Qle in Hq. lia.
    + replace (z - 1) with (z + -1) by lia. rewrite inject_Z_plus.
      change (inject_Z (-1)) with (-1 # 1)%Q. lra.
  - exists 1. split; [lia|reflexivity].
Qed.

Lemma reachable_valid (m : Modal) :
  reachable m →
  (∃ z : Z, 1 ≤ z ∧ (form_participants (form m) == inject_Z z)%Q)
  ∧ (step m = payment_step →
     nonempty (form_date (form m)) = true
     ∧ nonempty (form_time (form m)) = true).
Proof.
  induction 1 as [|g m Hm [(z & Hz & Hp) Hpay] Hoff].
  - split; [exists 1; split; [lia|reflexivity]|done].
  - destruct g; simpl in *.
    + split; [exists 1; split; [lia|reflexivity]|done].
    + apply bool_decide_eq_true in Hoff. split; [by exists z|].
      intros Hs. congruence.
    + apply andb_true_iff in Hoff as [Hoff%bool_decide_eq_true _].
      split; [by exists z|]. intros Hs. congruence.
    + apply bool_decide_eq_true in Hoff. split; [|intros Hs; congruence].
      apply (max1_whole _ z); [done|]. by rewrite Hp.
    + apply bool_decide_eq_true in Hoff. split; [|intros Hs; congruence].
      exists (z + 1). split; [lia|]. rewrite inject_Z_plus, Hp.
      reflexivity.
    + destruct (nonempty (form_date (form m))) eqn:Hd;
        destruct (nonempty (form_time (form m))) eqn:Ht;
        destruct (Qle_bool (form_participants (form m)) 0) eqn:Hq; simpl;
        (split; [by exists z|]); intros Hs; rewrite ?Hd, ?Ht; try done;
        destruct (Hpay Hs); congruence.
    + split; [by exists z|done].
    + split; [by exists z|done].
    + split; [by exists z|done].
Qed.

(** X23.  In every state the booking wizard can reach, the participant
    count is a whole number, at least one; and whenever the wizard is in
    its payment step, a date and a time slot are chosen. *)
Theorem wizard_invariant (m : Modal) :
  reachable m →
  (∃ z : Z, 1 ≤ z ∧ (form_participants (form m) == inject_Z z)%Q)
  ∧ (1 <= form_participants (form m))%Q
  ∧ (step m = payment_step →
     nonempty (form_date (form m)) = true
     ∧ nonempty (form_time (form m)) = true).
Proof.
  intros Hm. destruct (reachable_valid m Hm) as [(z & Hz & Hp) Hpay].
  split_and!.
  - by exists z.
  - rewrite Hp. change 1%Q with (inject_Z 1). by rewrite <- Zle_Qle.
  - exact Hpay.
Qed.

Lemma paying_reachable :
  reachable
    (gesture SubmitForm
       (gesture Decrement
          (gesture Increment
             (gesture Increment
                (gesture (SelectTime "14:00")
                   (gesture (SelectDate "2025-06-01") openModal)))))).
Proof.
  repeat (apply reachable_gesture; [|reflexivity]). apply reachable_open.
Qed.

Lemma wizard_invariant_witness :
  nonempty (form_date (form
    (gesture SubmitForm
       (gesture Decrement
          (gesture Increment
             (gesture Increment
                (gesture (SelectTime "14:00")
                   (gesture (SelectDate "2025-06-01") openModal)))))))) = true.
Proof.
  apply (proj2 (proj2 (wizard_invariant _ paying_reachable))). reflexivity.
Defined.

(** X24.  A payment submitted from a reachable payment step, when the
    binary64 product of the listing's price and the participant count is
    a finite number, appends one booking: for the listing of the modal,
    confirmed, with the date and the time slot chosen, at least one
    participant, and that product as its total price; the wizard then
    shows its last step. *)
Theorem wizard_booking (listing : Listing.t) (now : Z) (isoNow : string)
    (m : Modal) (st : Store) (total : number) :
  reachable m → step m = payment_step →
  Binary64.to_number
    (Binary64.mul (Binary64.of_number (Listing.price listing))
       (Binary64.of_number (form_participants (form m)))) = Some total →
  ∃ m' st' b,
    handlePaymentSubmit listing now isoNow m st = Some (m', st')
    ∧ step m' = success_step
    ∧ getBookings st' = getBookings st ++ [b]
    ∧ mockListings st' = mockListings st
    ∧ Booking.id b = bookingId now
    ∧ Booking.listingId b = Listing.id listing
    ∧ Booking.status b = confirmed
    ∧ nonempty (Booking.date b) = true
    ∧ nonempty (Booking.time b) = true
    ∧ (1 <= Booking.participants b)%Q
    ∧ Booking.participants b = form_participants (form m)
    ∧ Booking.totalPrice b = total.
Proof.
  intros Hm Hs Htotal.
  destruct (reachable_valid m Hm) as [(z & Hz & Hp) Hpay].
  destruct (Hpay Hs) as [Hd Ht].
  unfold handlePaymentSubmit, paymentInput, modalTotalPrice, times.
  rewrite Htotal. simpl.
  eexists _, _, _. split; [reflexivity|]. simpl. split_and!; try done.
  rewrite Hp. change 1%Q with (inject_Z 1). by rewrite <- Zle_Qle.
Qed.

Lemma wizard_booking_witness :
  ∃ m' st' b,
    handlePaymentSubmit jazz 1748786400000 "2025-06-01T14:00:00.000Z"
      (gesture SubmitForm
         (gesture Decrement
            (gesture Increment
               (gesture Increment
                  (gesture (SelectTime "14:00")
                     (gesture (SelectDate "2025-06-01") openModal))))))
      store0 = Some (m', st')
    ∧ step m' = success_step
    ∧ getBookings st' = [b]
    ∧ Booking.totalPrice b = 800%Q.
Proof.
  destruct (wizard_booking jazz 1748786400000 "2025-06-01T14:00:00.000Z"
              _ store0 800%Q paying_reachable eq_refl eq_refl)
    as (m' & st' & b & Hsubmit & Hstep & Hbs & _ & _ & _ & _ & _ & _ & _
        & _ & Hprice).
  exists m', st', b. split_and!; [exact Hsubmit|exact Hstep|exact Hbs|].
  exact Hprice.
Defined.
